(** * splat-to-mesh: the PLY to GLB conversion service

    A shallow embedding of [app.py], [converter.py] and [gcs_handler.py].

    The service is glue code around three collaborators: an HTTP client
    ([requests]), a command-line tool run as a subprocess ([pdal]) and an
    object store client ([google.cloud.storage]).  Their behaviour is not
    part of the repository; it is supplied by an environment record [env]
    (what the network answers, what the tool prints and writes, which
    library call fails and how).  The code of the repository is embedded
    as functions in a state-and-exception monad over a [world] made of a
    file system, an object store and a log of the calls made.

    What the model takes the collaborators to be:
    - a library call either returns or raises an exception of its own
      class, carrying the text [str(e)] gives;
    - the subprocess may create or overwrite regular files, anywhere, and
      does nothing else to the file system;
    - [os.unlink] and [shutil.rmtree] fail only on a path that is missing
      or of the wrong kind;
    - only instances of [Exception] are raised (no [KeyboardInterrupt]).

    Logging ([logger.info], [logger.error]) has no effect that any
    statement below depends on and is left out. *)

From Stdlib Require Import Ascii DecimalString.
From stdpp Require Import gmap strings list fin_maps.

Set Default Proof Using "Type".

(** ** Strings *)

Module Str.

(** Python's [s.startswith(p)]. *)
Definition startswith (s p : string) : bool := String.prefix p s.

(** Python's [s.endswith("/")]. *)
Fixpoint ends_with_slash (s : string) : bool :=
  match s with
  | EmptyString => false
  | String c EmptyString => if Ascii.ascii_dec c "/"%char then true else false
  | String _ rest => ends_with_slash rest
  end.

(** [contains s t]: the text [t] occurs in [s] verbatim. *)
Definition contains (s t : string) : Prop :=
  exists pre post, s = pre +:+ t +:+ post.

(** The executable counterpart of [contains]. *)
Fixpoint containsb (s t : string) : bool :=
  String.prefix t s ||
  match s with
  | EmptyString => false
  | String _ rest => containsb rest t
  end.

(** Decimal rendering of integers, as [%d] and [str(int)] print them. *)
Definition of_Z (z : Z) : string := NilZero.string_of_int (Z.to_int z).
Definition of_nat (n : nat) : string := NilZero.string_of_uint (Nat.to_uint n).

(** [%02d] and [%04d] for the non-negative fields of a date. *)
Definition pad2 (n : nat) : string :=
  if Nat.ltb n 10 then "0" +:+ of_nat n else of_nat n.
Definition pad4 (n : nat) : string :=
  if Nat.ltb n 10 then "000" +:+ of_nat n
  else if Nat.ltb n 100 then "00" +:+ of_nat n
  else if Nat.ltb n 1000 then "0" +:+ of_nat n
  else of_nat n.

Definition hex_digit (n : nat) : Ascii.ascii :=
  match n with
  | 0 => "0" | 1 => "1" | 2 => "2" | 3 => "3" | 4 => "4" | 5 => "5"
  | 6 => "6" | 7 => "7" | 8 => "8" | 9 => "9" | 10 => "a" | 11 => "b"
  | 12 => "c" | 13 => "d" | 14 => "e" | _ => "f"
  end%char.

Definition quote : Ascii.ascii := "'"%char.
Definition dquote : Ascii.ascii := Ascii.ascii_of_nat 34.
Definition backslash : Ascii.ascii := "\"%char.

Fixpoint has_char (c : Ascii.ascii) (s : string) : bool :=
  match s with
  | EmptyString => false
  | String a rest => (if Ascii.ascii_dec a c then true else false) || has_char c rest
  end.

(** The body of Python's [repr] of a [str], for the delimiter [q]:
    backslash and the delimiter are escaped, so are the control
    characters; bytes above 127 (the UTF-8 encoding of printable
    non-ASCII text) are kept. *)
Fixpoint repr_body (q : Ascii.ascii) (s : string) : string :=
  match s with
  | EmptyString => EmptyString
  | String c rest =>
      let n := Ascii.nat_of_ascii c in
      let tail := repr_body q rest in
      if Ascii.ascii_dec c backslash then String backslash (String backslash tail)
      else if Ascii.ascii_dec c q then String backslash (String q tail)
      else if Nat.eqb n 10 then String backslash (String "n" tail)
      else if Nat.eqb n 13 then String backslash (String "r" tail)
      else if Nat.eqb n 9 then String backslash (String "t" tail)
      else if Nat.ltb n 32 || Nat.eqb n 127 then
        String backslash (String "x" (String (hex_digit (n / 16))
                                             (String (hex_digit (n mod 16)) tail)))
      else String c tail
  end.

(** Python's [repr(s)]: single quotes, unless the text holds a single
    quote and no double quote. *)
Definition repr (s : string) : string :=
  let q := if has_char quote s && negb (has_char dquote s) then dquote else quote in
  String q (repr_body q s +:+ String q EmptyString).

(** Python's [", ".join(l)]. *)
Fixpoint join_comma (l : list string) : string :=
  match l with
  | [] => ""
  | [x] => x
  | x :: rest => x +:+ ", " +:+ join_comma rest
  end.

(** Python's [str(l)] for a list of [str]. *)
Definition of_list (l : list string) : string :=
  "[" +:+ join_comma (map repr l) +:+ "]".

End Str.

(** ** Python values

    The part of Python's data that the service builds: text, lists and
    dictionaries with text keys (in insertion order). *)

#[warnings="-register-all"]
Inductive pyval : Type :=
| PyStr (s : string)
| PyList (items : list pyval)
| PyDict (entries : list (string * pyval)).

(** [d[k]] on a dictionary, [None] on anything else or a missing key. *)
Definition py_get (k : string) (v : pyval) : option pyval :=
  match v with
  | PyDict entries => snd <$> find (fun kv => String.eqb (fst kv) k) entries
  | _ => None
  end.

Definition py_keys (v : pyval) : list string :=
  match v with
  | PyDict entries => map fst entries
  | _ => []
  end.

Definition py_items (v : pyval) : list pyval :=
  match v with
  | PyList items => items
  | _ => []
  end.

(** ** Exceptions

    Every exception the service meets is an instance of Python's
    [Exception].  Three classes are told apart by the code; every other
    class (raised by a library: [OSError], [requests.RequestException],
    the storage client's errors, ...) is a [LibraryError] with the name of
    its class and the text [str(e)] gives. *)

Record lib_error : Type := LibError { err_class : string; err_text : string }.

Inductive exn : Type :=
| CalledProcessError (returncode : Z) (cmd : list string) (output stderr : string)
| PlainException (msg : string)
| HTTPException (status_code : Z) (detail : string)
| LibraryError (e : lib_error).

Definition is_CalledProcessError (e : exn) : bool :=
  match e with
  | CalledProcessError _ _ _ _ => true
  | _ => false
  end.

(** ** The world *)

(** What a file holds: raw bytes, or the text [json.dump] writes for a
    value. *)
Inductive content : Type :=
| Bytes (data : string)
| JsonText (v : pyval).

Inductive node : Type :=
| File (c : content)
| Dir.

Record blob : Type := Blob { blob_data : content; blob_public : bool }.

(** The calls of the repository's own functions, most recent first. *)
Inductive call : Type :=
| CallDownload (url output_path : string)
| CallConvert (input_ply_path output_glb_path : string)
| CallUpload (bucket_name source_file_path destination_blob_name : string).

Record world : Type := World {
  fs : gmap string node;
  store : gmap (string * string) blob;
  calls : list call
}.

Definition with_fs (f : gmap string node -> gmap string node) (w : world) : world :=
  {| fs := f (fs w); store := store w; calls := calls w |}.

Definition with_store (f : gmap (string * string) blob -> gmap (string * string) blob)
    (w : world) : world :=
  {| fs := fs w; store := f (store w); calls := calls w |}.

Definition with_call (c : call) (w : world) : world :=
  {| fs := fs w; store := store w; calls := c :: calls w |}.

Definition is_convert_call (c : call) : bool :=
  match c with CallConvert _ _ => true | _ => false end.

Definition is_upload_call (c : call) : bool :=
  match c with CallUpload _ _ _ => true | _ => false end.

Definition count_calls (p : call -> bool) (w : world) : nat :=
  length (List.filter p (calls w)).

(** ** The environment: what the collaborators do *)

(** The answer of [requests.get(url, stream=True)]: the call raises, or
    returns a response whose body arrives in chunks and may break off
    with an error (a dropped connection, or a write that fails). *)
Record response : Type := Response {
  status_code : Z;
  reason : string;
  resp_url : string;
  chunks : list string;
  stream_error : option lib_error
}.

Inductive http_result : Type :=
| HttpRaises (e : lib_error)
| HttpReturns (r : response).

(** The run of a subprocess: it cannot be started, or it exits with a
    status, its two captured streams, and the regular files it has
    created or overwritten. *)
Inductive process_result : Type :=
| LaunchFails (e : lib_error)
| Exited (returncode : Z) (stdout stderr : string) (writes : list (string * content)).

Record datetime : Type := DateTime {
  year : nat; month : nat; day : nat; hour : nat; minute : nat; second : nat
}.

Record env : Type := Env {
  (** [tempfile.gettempdir()] *)
  tempdir : string;
  (** the random part of the name [tempfile.mkdtemp] picks, and the
      error of the system call when it fails *)
  mkdtemp_name : string;
  mkdtemp_error : option lib_error;
  (** the network *)
  http_get : string -> http_result;
  (** [open(path, 'wb')] failing for a reason outside the model *)
  open_error : string -> option lib_error;
  (** the random part of the name [tempfile.NamedTemporaryFile] picks,
      and the failures of creating, writing and closing that file *)
  ntf_name : string;
  ntf_error : option lib_error;
  dump_error : option lib_error;
  close_error : option lib_error;
  (** [subprocess.run(argv)] seen from outside *)
  run_process : list string -> gmap string node -> process_result;
  (** the name of a signal number, [None] where [signal.Signals] has none *)
  signal_name : Z -> option string;
  (** [datetime.now()] at the time the destination key is made *)
  now : datetime;
  (** the failures of the storage client: constructing it, the
      transfer, and making the object public *)
  gcs_client_error : option lib_error;
  gcs_upload_error : option lib_error;
  gcs_acl_error : option lib_error
}.

(** ** The monad of Python function bodies

    A function body runs on a [frame]: its own local variables (only the
    ones read after an exception may have occurred need a slot) and the
    world.  It returns a value or raises, and leaves a frame behind. *)

Inductive outcome (A : Type) : Type :=
| Ret (a : A)
| Raise (e : exn).
Arguments Ret {A} a.
Arguments Raise {A} e.

Record frame (L : Type) : Type := Frame { locals : L; globe : world }.
Arguments Frame {L} locals globe.
Arguments locals {L} f.
Arguments globe {L} f.

Definition M (L A : Type) : Type := frame L -> outcome A * frame L.

Definition ret {L A} (a : A) : M L A := fun s => (Ret a, s).

Definition raise {L A} (e : exn) : M L A := fun s => (Raise e, s).

Definition bind {L A B} (m : M L A) (k : A -> M L B) : M L B :=
  fun s =>
    match m s with
    | (Ret a, s') => k a s'
    | (Raise e, s') => (Raise e, s')
    end.

Declare Scope py_scope.
Delimit Scope py_scope with py.
Notation "x <- m ;; k" := (bind m (fun x => k))
  (at level 100, m at next level, right associativity) : py_scope.
Notation "m ;; k" := (bind m (fun _ => k))
  (at level 100, right associativity) : py_scope.
Open Scope py_scope.

Definition get_world {L} : M L world := fun s => (Ret (globe s), s).

Definition modify_world {L} (f : world -> world) : M L unit :=
  fun s => (Ret tt, Frame (locals s) (f (globe s))).

Definition get_local {L} : M L L := fun s => (Ret (locals s), s).

Definition set_local {L} (v : L) : M L unit :=
  fun s => (Ret tt, Frame v (globe s)).

(** [try: body  except Exception as e: handler e]: all of [exn] is below
    [Exception]; a chain of [except] clauses is a [match] in [handler]. *)
Definition try_except {L A} (body : M L A) (handler : exn -> M L A) : M L A :=
  fun s =>
    match body s with
    | (Ret a, s') => (Ret a, s')
    | (Raise e, s') => handler e s'
    end.

(** [try: body  finally: fin]: [fin] always runs; what [body] did stands
    unless [fin] raises itself. *)
Definition try_finally {L A} (body : M L A) (fin : M L unit) : M L A :=
  fun s =>
    match body s with
    | (r, s') =>
        match fin s' with
        | (Ret _, s'') => (r, s'')
        | (Raise e, s'') => (Raise e, s'')
        end
    end.

(** A call: the callee runs on fresh locals, which are dropped when it
    is done. *)
Definition call_fn {L L' A} (init : L') (m : M L' A) : M L A :=
  fun s =>
    match m (Frame init (globe s)) with
    | (r, s') => (r, Frame (locals s) (globe s'))
    end.

(** Running a function from outside, on a world. *)
Definition run {L A} (init : L) (m : M L A) (w : world) : outcome A * world :=
  let rs := m (Frame init w) in (fst rs, globe (snd rs)).

(** ** The libraries the service calls *)

Module Os.

(** [os.path.join(a, b)] of [posixpath]. *)
Definition path_join (a b : string) : string :=
  if Str.startswith b "/" then b
  else if String.eqb a "" || Str.ends_with_slash a then a +:+ b
  else a +:+ "/" +:+ b.

(** [p] lies below the directory [d]. *)
Definition under (d p : string) : bool := String.prefix (path_join d "") p.

Definition at_or_under (d p : string) : bool := String.eqb p d || under d p.

(** [str(e)] of an [OSError] made from an errno and a file name. *)
Definition os_error (cls : string) (errno : nat) (strerror path : string) : exn :=
  LibraryError
    (LibError cls ("[Errno " +:+ Str.of_nat errno +:+ "] " +:+ strerror +:+ ": "
                   +:+ Str.repr path)).

Definition FileNotFoundError := os_error "FileNotFoundError" 2 "No such file or directory".
Definition FileExistsError := os_error "FileExistsError" 17 "File exists".
Definition NotADirectoryError := os_error "NotADirectoryError" 20 "Not a directory".
Definition IsADirectoryError := os_error "IsADirectoryError" 21 "Is a directory".

(** [os.path.exists(p)] *)
Definition path_exists {L} (p : string) : M L bool :=
  w <- get_world ;;
  ret (bool_decide (is_Some (fs w !! p))).

(** [os.unlink(p)] *)
Definition unlink {L} (p : string) : M L unit :=
  w <- get_world ;;
  match fs w !! p with
  | Some (File _) => modify_world (with_fs (delete p))
  | Some Dir => raise (IsADirectoryError p)
  | None => raise (FileNotFoundError p)
  end.

(** What is left of a file system once [d] and all below it are gone. *)
Definition remove_tree (d : string) (m : gmap string node) : gmap string node :=
  filter (fun kv => at_or_under d (fst kv) = false) m.

(** [shutil.rmtree(d)] *)
Definition rmtree {L} (d : string) : M L unit :=
  w <- get_world ;;
  match fs w !! d with
  | Some Dir => modify_world (with_fs (remove_tree d))
  | Some (File _) => raise (NotADirectoryError d)
  | None => raise (FileNotFoundError d)
  end.

(** Creating or truncating a regular file, as [open(p, 'wb')] and
    [open(p, 'w')] do; a directory is in the way or it is not. *)
Definition create_file {L} (p : string) : M L unit :=
  w <- get_world ;;
  match fs w !! p with
  | Some Dir => raise (IsADirectoryError p)
  | _ => modify_world (with_fs (insert p (File (Bytes ""))))
  end.

(** Storing [c] as the whole of the regular file at [p]; nothing is
    stored where a directory is. *)
Definition write_one (m : gmap string node) (pc : string * content) : gmap string node :=
  match m !! fst pc with
  | Some Dir => m
  | _ => <[fst pc := File (snd pc)]> m
  end.

(** [f.write(chunk)] on the file opened at [p]. *)
Definition append_file {L} (p chunk : string) : M L unit :=
  modify_world (with_fs (fun m =>
    match m !! p with
    | Some (File (Bytes old)) => write_one m (p, Bytes (old +:+ chunk))
    | _ => write_one m (p, Bytes chunk)
    end)).

(** The files a subprocess wrote, in the order it wrote them. *)
Definition apply_writes (writes : list (string * content)) (m : gmap string node)
    : gmap string node :=
  fold_left write_one writes m.

End Os.

Section Service.

Variable E : env.

(** [str(e)] *)
Definition exn_str (e : exn) : string :=
  match e with
  | CalledProcessError rc cmd _ _ =>
      if (rc <? 0)%Z then
        match signal_name E (- rc)%Z with
        | Some name =>
            "Command '" +:+ Str.of_list cmd +:+ "' died with <Signals." +:+ name
            +:+ ": " +:+ Str.of_Z (- rc) +:+ ">."
        | None =>
            "Command '" +:+ Str.of_list cmd +:+ "' died with unknown signal "
            +:+ Str.of_Z (- rc) +:+ "."
        end
      else
        "Command '" +:+ Str.of_list cmd +:+ "' returned non-zero exit status "
        +:+ Str.of_Z rc +:+ "."
  | PlainException msg => msg
  | HTTPException status detail => Str.of_Z status +:+ ": " +:+ detail
  | LibraryError e => err_text e
  end.

(** *** tempfile *)

Definition no_usable_name (kind : string) : exn :=
  LibraryError (LibError "FileExistsError"
    ("[Errno 17] No usable temporary " +:+ kind +:+ " name found")).

Definition mkdtemp_path : string :=
  Os.path_join (tempdir E) ("tmp" +:+ mkdtemp_name E).

(** [tempfile.mkdtemp()] *)
Definition mkdtemp {L} : M L string :=
  match mkdtemp_error E with
  | Some e => raise (LibraryError e)
  | None =>
      w <- get_world ;;
      match fs w !! mkdtemp_path with
      | Some _ => raise (no_usable_name "directory")
      | None =>
          modify_world (with_fs (insert mkdtemp_path Dir)) ;;
          ret mkdtemp_path
      end
  end.

Definition ntf_path (suffix : string) : string :=
  Os.path_join (tempdir E) ("tmp" +:+ ntf_name E +:+ suffix).

(** [tempfile.NamedTemporaryFile(mode='w', suffix=suffix, delete=False)]:
    the file is created, its name is returned. *)
Definition NamedTemporaryFile {L} (suffix : string) : M L string :=
  match ntf_error E with
  | Some e => raise (LibraryError e)
  | None =>
      w <- get_world ;;
      match fs w !! ntf_path suffix with
      | Some _ => raise (no_usable_name "file")
      | None =>
          modify_world (with_fs (insert (ntf_path suffix) (File (Bytes "")))) ;;
          ret (ntf_path suffix)
      end
  end.

(** [json.dump(v, f)] on the file opened at [p] *)
Definition json_dump {L} (v : pyval) (p : string) : M L unit :=
  match dump_error E with
  | Some e => raise (LibraryError e)
  | None => modify_world (with_fs (fun m => Os.write_one m (p, JsonText v)))
  end.

(** [f.close()], which a [with] block runs on the way out *)
Definition file_close {L} : M L unit :=
  match close_error E with
  | Some e => raise (LibraryError e)
  | None => ret tt
  end.

(** *** requests *)

Definition requests_get {L} (url : string) : M L response :=
  match http_get E url with
  | HttpRaises e => raise (LibraryError e)
  | HttpReturns r => ret r
  end.

Definition HTTPError (kind : string) (r : response) : exn :=
  LibraryError (LibError "HTTPError"
    (Str.of_Z (status_code r) +:+ " " +:+ kind +:+ " Error: " +:+ reason r
     +:+ " for url: " +:+ resp_url r)).

(** [response.raise_for_status()] *)
Definition raise_for_status {L} (r : response) : M L unit :=
  if (400 <=? status_code r)%Z && (status_code r <? 500)%Z then
    raise (HTTPError "Client" r)
  else if (500 <=? status_code r)%Z && (status_code r <? 600)%Z then
    raise (HTTPError "Server" r)
  else ret tt.

(** [open(p, 'wb')] *)
Definition open_wb {L} (p : string) : M L unit :=
  match open_error E p with
  | Some e => raise (LibraryError e)
  | None => Os.create_file p
  end.

(** [for chunk in response.iter_content(...): f.write(chunk)] *)
Fixpoint write_chunks {L} (p : string) (cs : list string) : M L unit :=
  match cs with
  | [] => ret tt
  | chunk :: rest => Os.append_file p chunk ;; write_chunks p rest
  end.

Definition stream_to {L} (r : response) (p : string) : M L unit :=
  write_chunks p (chunks r) ;;
  match stream_error r with
  | Some e => raise (LibraryError e)
  | None => ret tt
  end.

(** *** subprocess *)

(** [subprocess.run(argv, capture_output=True, text=True, check=True)];
    the value is the captured standard output. *)
Definition subprocess_run {L} (argv : list string) : M L string :=
  w <- get_world ;;
  match run_process E argv (fs w) with
  | LaunchFails e => raise (LibraryError e)
  | Exited rc out err writes =>
      modify_world (with_fs (Os.apply_writes writes)) ;;
      if (rc =? 0)%Z then ret out
      else raise (CalledProcessError rc argv out err)
  end.

(** *** datetime *)

(** [d.strftime('%Y%m%d_%H%M%S')] *)
Definition strftime (d : datetime) : string :=
  Str.pad4 (year d) +:+ Str.pad2 (month d) +:+ Str.pad2 (day d) +:+ "_"
  +:+ Str.pad2 (hour d) +:+ Str.pad2 (minute d) +:+ Str.pad2 (second d).

(** *** google.cloud.storage *)

Definition storage_Client {L} : M L unit :=
  match gcs_client_error E with
  | Some e => raise (LibraryError e)
  | None => ret tt
  end.

(** [bucket.blob(key).upload_from_filename(source)] *)
Definition upload_from_filename {L} (bucket key source : string) : M L unit :=
  w <- get_world ;;
  match fs w !! source with
  | None => raise (Os.FileNotFoundError source)
  | Some Dir => raise (Os.IsADirectoryError source)
  | Some (File c) =>
      match gcs_upload_error E with
      | Some e => raise (LibraryError e)
      | None => modify_world (with_store (insert (bucket, key) (Blob c false)))
      end
  end.

(** [blob.make_public()] *)
Definition make_public {L} (bucket key : string) : M L unit :=
  match gcs_acl_error E with
  | Some e => raise (LibraryError e)
  | None =>
      modify_world (with_store (alter (fun b => Blob (blob_data b) true) (bucket, key)))
  end.

(** ** converter.py *)

(** [download_file(url, output_path)] *)
Definition download_file (url output_path : string) : M unit unit :=
  modify_world (with_call (CallDownload url output_path)) ;;
  response <- requests_get url ;;
  raise_for_status response ;;
  open_wb output_path ;;
  stream_to response output_path.

(** The dictionary [pipeline_definition]. *)
Definition pipeline_definition (input_ply_path output_glb_path : string) : pyval :=
  PyDict [
    ("pipeline", PyList [
      PyDict [("type", PyStr "readers.ply"); ("filename", PyStr input_ply_path)];
      PyDict [("type", PyStr "filters.delaunay")];
      PyDict [("type", PyStr "writers.gltf"); ("filename", PyStr output_glb_path)]
    ])
  ].

(** The [with] block that writes the descriptor; the local variable
    [pipeline_file] is bound by its last statement. *)
Definition write_pipeline (definition : pyval) : M (option string) unit :=
  f_name <- NamedTemporaryFile ".json" ;;
  try_finally
    (json_dump definition f_name ;;
     set_local (Some f_name))
    file_close.

(** Reading [pipeline_file] before it is bound. *)
Definition unbound_pipeline_file : exn :=
  LibraryError (LibError "UnboundLocalError"
    "cannot access local variable 'pipeline_file' where it is not associated with a value").

(** [convert_ply_to_glb(input_ply_path, output_glb_path)]; the local
    slot is [pipeline_file], unbound at the start. *)
Definition convert_ply_to_glb (input_ply_path output_glb_path : string)
    : M (option string) unit :=
  modify_world (with_call (CallConvert input_ply_path output_glb_path)) ;;
  let definition := pipeline_definition input_ply_path output_glb_path in
  try_finally
    (try_except
       (write_pipeline definition ;;
        pipeline_file <- get_local ;;
        match pipeline_file with
        | Some pipeline_file =>
            subprocess_run ["pdal"; "pipeline"; pipeline_file] ;;
            ret tt
        | None => raise unbound_pipeline_file
        end)
       (fun e =>
          match e with
          | CalledProcessError _ _ _ _ =>
              raise (PlainException ("PDAL conversion failed: " +:+ exn_str e))
          | _ =>
              raise (PlainException ("PDAL conversion failed: " +:+ exn_str e))
          end))
    (pipeline_file <- get_local ;;
     match pipeline_file with
     | Some pipeline_file =>
         present <- Os.path_exists pipeline_file ;;
         if present then Os.unlink pipeline_file else ret tt
     | None => ret tt
     end).

(** ** gcs_handler.py *)

(** [upload_to_gcs(bucket_name, source_file_path, destination_blob_name)] *)
Definition upload_to_gcs (bucket_name source_file_path destination_blob_name : string)
    : M unit unit :=
  modify_world (with_call (CallUpload bucket_name source_file_path destination_blob_name)) ;;
  try_except
    (storage_Client ;;
     upload_from_filename bucket_name destination_blob_name source_file_path ;;
     make_public bucket_name destination_blob_name)
    (fun e => raise (PlainException ("GCS upload failed: " +:+ exn_str e))).

(** [get_public_url(bucket_name, blob_name)] *)
Definition get_public_url (bucket_name blob_name : string) : string :=
  "https://storage.googleapis.com/" +:+ bucket_name +:+ "/" +:+ blob_name.

(** ** app.py *)

Definition GCS_BUCKET : string := "doodle-world-static".

Record ConversionResponse : Type := {
  glb_url : string;
  message : string
}.

(** [health_check()] *)
Definition health_check : M unit pyval :=
  ret (PyDict [("status", PyStr "healthy")]).

(** The body of the [try] block of the /convert handler. *)
Definition convert_try_body (url : string) : M (option string) ConversionResponse :=
  temp_dir <- mkdtemp ;;
  set_local (Some temp_dir) ;;
  let ply_path := Os.path_join temp_dir "input.ply" in
  let glb_path := Os.path_join temp_dir "output.glb" in
  call_fn tt (download_file url ply_path) ;;
  call_fn None (convert_ply_to_glb ply_path glb_path) ;;
  let filename := "converted_" +:+ strftime (now E) +:+ ".glb" in
  let blob_name := "conversions/" +:+ filename in
  call_fn tt (upload_to_gcs GCS_BUCKET glb_path blob_name) ;;
  let glb_url := get_public_url GCS_BUCKET blob_name in
  ret {| glb_url := glb_url; message := "Conversion successful" |}.

(** The two [except] clauses of the handler, in order. *)
Definition convert_except (e : exn) : M (option string) ConversionResponse :=
  match e with
  | CalledProcessError _ _ _ stderr =>
      raise (HTTPException 500 ("Conversion failed: " +:+ stderr))
  | _ =>
      raise (HTTPException 500 ("An error occurred: " +:+ exn_str e))
  end.

(** The [finally] clause of the handler: [temp_dir] is truthy when it
    is bound to a text that is not empty. *)
Definition convert_finally : M (option string) unit :=
  temp_dir <- get_local ;;
  match temp_dir with
  | Some temp_dir =>
      if negb (String.eqb temp_dir "") then
        present <- Os.path_exists temp_dir ;;
        if present then Os.rmtree temp_dir else ret tt
      else ret tt
  | None => ret tt
  end.

(** [convert_ply_to_glb_endpoint(url)]; the local slot is [temp_dir],
    [None] at the start. *)
Definition convert_ply_to_glb_endpoint (url : string) : M (option string) ConversionResponse :=
  set_local None ;;
  try_finally
    (try_except (convert_try_body url) convert_except)
    convert_finally.

(** ** The HTTP surface

    What the framework sends for what an endpoint did: the value it
    returned with status 200, an [HTTPException] as its status and a
    [detail], anything else as the framework's own 500. *)

Record http_response : Type := { status : Z; body : pyval }.

Definition respond {A} (encode : A -> pyval) (r : outcome A) : http_response :=
  match r with
  | Ret a => {| status := 200; body := encode a |}
  | Raise (HTTPException code detail) =>
      {| status := code; body := PyDict [("detail", PyStr detail)] |}
  | Raise _ => {| status := 500; body := PyStr "Internal Server Error" |}
  end.

Definition encode_conversion (c : ConversionResponse) : pyval :=
  PyDict [("glb_url", PyStr (glb_url c)); ("message", PyStr (message c))].

(** [GET /health] *)
Definition get_health (w : world) : http_response * world :=
  let (r, w') := run tt health_check w in (respond id r, w').

(** [GET /convert?url=...] *)
Definition get_convert (url : string) (w : world) : http_response * world :=
  let (r, w') := run None (convert_ply_to_glb_endpoint url) w in
  (respond encode_conversion r, w').

(** The routes [app.py] registers.  The query is the framework's view of
    the query string, one value per name; [None] stands for the answers
    the framework gives on its own (no such route, or the required
    parameter [url] is missing). *)
Definition app_get (path : string) (query : gmap string string) (w : world)
    : option (http_response * world) :=
  if String.eqb path "/health" then Some (get_health w)
  else if String.eqb path "/convert" then
    match query !! "url" with
    | Some url => Some (get_convert url w)
    | None => None
    end
  else None.

End Service.

(** ** Sample collaborators

    Concrete environments on which the statements below are exercised. *)

Module Scenario.

(** A tool that does what the descriptor says: it reads the descriptor
    named by its last argument, and writes a mesh where the last stage
    tells it to, provided the file the first stage names is there. *)
Definition stage_filename (i : nat) (definition : pyval) : option string :=
  match py_get "pipeline" definition with
  | Some stages =>
      match py_items stages !! i with
      | Some stage =>
          match py_get "filename" stage with
          | Some (PyStr p) => Some p
          | _ => None
          end
      | None => None
      end
  | None => None
  end.

Definition mesh_of (c : content) : content :=
  match c with
  | Bytes data => Bytes ("glTF:" +:+ data)
  | JsonText _ => Bytes "glTF"
  end.

Definition pdal (argv : list string) (m : gmap string node) : process_result :=
  match argv with
  | [_; _; descriptor] =>
      match m !! descriptor with
      | Some (File (JsonText definition)) =>
          match stage_filename 0 definition, stage_filename 2 definition with
          | Some input, Some output =>
              match m !! input with
              | Some (File c) => Exited 0 "" "" [(output, mesh_of c)]
              | _ => Exited 1 "" "PDAL: readers.ply: Could not open file" []
              end
          | _, _ => Exited 1 "" "PDAL: malformed pipeline" []
          end
      | _ => Exited 1 "" "PDAL: Unable to open pipeline file" []
      end
  | _ => Exited 1 "" "usage: pdal pipeline <file>" []
  end.

(** A tool that fails whatever it is given. *)
Definition pdal_stderr : string := "PDAL: readers.ply: Unable to read header".

Definition pdal_failing (_ : list string) (_ : gmap string node) : process_result :=
  Exited 1 "" pdal_stderr [].

(** A tool that reports success and writes nothing. *)
Definition pdal_idle (_ : list string) (_ : gmap string node) : process_result :=
  Exited 0 "" "" [].

(** A server that answers every URL with the given status and body. *)
Definition serve (code : Z) (why : string) (data : list string) (url : string)
    : http_result :=
  HttpReturns {| status_code := code; reason := why; resp_url := url;
                 chunks := data; stream_error := None |}.

Definition noon : datetime :=
  {| year := 2024; month := 3; day := 9; hour := 12; minute := 0; second := 5 |}.

(** An environment in which no library call fails, with the network,
    the tool and the random names as given. *)
Definition make (http : string -> http_result)
    (tool : list string -> gmap string node -> process_result)
    (dir_name file_name : string) : env :=
  {| tempdir := "/tmp";
     mkdtemp_name := dir_name;
     mkdtemp_error := None;
     http_get := http;
     open_error := fun _ => None;
     ntf_name := file_name;
     ntf_error := None;
     dump_error := None;
     close_error := None;
     run_process := tool;
     signal_name := fun _ => None;
     now := noon;
     gcs_client_error := None;
     gcs_upload_error := None;
     gcs_acl_error := None |}.

Definition url : string := "https://example.com/cloud.ply".
Definition other_url : string := "https://example.com/other.ply".

Definition empty_world : world := {| fs := ∅; store := ∅; calls := [] |}.

(** Everything works. *)
Definition happy : env :=
  make (serve 200 "OK" ["ply"; "data"]) pdal "k3x9q2ab" "w8_1zr4c".

(** A second request, served within the same second as [happy]: other
    random names, another file. *)
Definition happy_again : env :=
  make (serve 200 "OK" ["other"]) pdal "p0_m4tzz" "c71hq_e5".

(** The download works, the tool exits with status 1. *)
Definition tool_fails : env :=
  make (serve 200 "OK" ["ply"; "data"]) pdal_failing "k3x9q2ab" "w8_1zr4c".

(** The download works, the tool exits with status 0 and writes nothing. *)
Definition tool_idles : env :=
  make (serve 200 "OK" ["ply"; "data"]) pdal_idle "k3x9q2ab" "w8_1zr4c".

(** The server answers 404. *)
Definition not_found : env :=
  make (serve 404 "Not Found" []) pdal "k3x9q2ab" "w8_1zr4c".

(** The server answers 300 with a page of choices, which is no point
    cloud. *)
Definition multiple_choices : env :=
  make (serve 300 "Multiple Choices" ["<html>choices</html>"]) pdal_failing
    "k3x9q2ab" "w8_1zr4c".

End Scenario.

(** ** Vocabulary of the statements *)

(** The directories of [w] are still directories in [w']. *)
Definition dirs_kept (w w' : world) : Prop :=
  forall d, fs w !! d = Some Dir -> fs w' !! d = Some Dir.

Definition is_file (m : gmap string node) (p : string) : Prop :=
  exists c, m !! p = Some (File c).

(** [convert_ply_to_glb] got as far as having written its descriptor:
    the temporary file was created and [json.dump] returned. *)
Definition descriptor_written (E : env) (i o : string) (w : world) : Prop :=
  exists w1,
    run (@None string)
      (f_name <- NamedTemporaryFile E ".json" ;;
       json_dump E (pipeline_definition i o) f_name)
      (with_call (CallConvert i o) w)
    = (Ret tt, w1).

(** A descriptor of three stages: read PLY from [i], triangulate, write
    glTF to [o]. *)
Definition ply_to_gltf_pipeline (i o : string) (v : pyval) : Prop :=
  py_keys v = ["pipeline"] /\
  exists read mesh write,
    py_get "pipeline" v = Some (PyList [read; mesh; write]) /\
    py_keys read = ["type"; "filename"] /\
    py_get "type" read = Some (PyStr "readers.ply") /\
    py_get "filename" read = Some (PyStr i) /\
    py_keys mesh = ["type"] /\
    py_get "type" mesh = Some (PyStr "filters.delaunay") /\
    py_keys write = ["type"; "filename"] /\
    py_get "type" write = Some (PyStr "writers.gltf") /\
    py_get "filename" write = Some (PyStr o).

(** The body [{"detail": text}] of an error response. *)
Definition detail_body (text : string) : pyval := PyDict [("detail", PyStr text)].

(** The statuses [raise_for_status] raises for. *)
Definition error_status (code : Z) : bool :=
  ((400 <=? code) && (code <? 600))%Z.

(** The statuses HTTP calls successful. *)
Definition success_status (code : Z) : bool :=
  ((200 <=? code) && (code <? 300))%Z.

(** The names the /convert handler works with. *)
Definition input_path (E : env) : string := Os.path_join (mkdtemp_path E) "input.ply".
Definition output_path (E : env) : string := Os.path_join (mkdtemp_path E) "output.glb".
Definition destination_key (E : env) : string :=
  "conversions/" +:+ ("converted_" +:+ strftime (now E) +:+ ".glb").

Definition success_response (E : env) : ConversionResponse :=
  {| glb_url := get_public_url GCS_BUCKET (destination_key E);
     message := "Conversion successful" |}.

(** What the generic [except Exception] clause of the handler raises. *)
Definition generic_failure {A} (E : env) (e : exn) : outcome A :=
  Raise (HTTPException 500 ("An error occurred: " +:+ exn_str E e)).

(** The world once the workspace has been removed. *)
Definition cleaned (E : env) (w : world) : world :=
  with_fs (Os.remove_tree (mkdtemp_path E)) w.

(** The /convert handler as a chain of four stages, each run on the
    world the one before left: every failure leaves through the generic
    clause, and every path after the first stage ends with the workspace
    removed.  [endpoint_staged] below proves that this is what the
    handler computes. *)
Definition staged (E : env) (url : string) (w : world) : outcome ConversionResponse * world :=
  match run (@None string) (mkdtemp E) w with
  | (Raise e, w1) => (generic_failure E e, w1)
  | (Ret _, w1) =>
      match run tt (download_file E url (input_path E)) w1 with
      | (Raise e, w2) => (generic_failure E e, cleaned E w2)
      | (Ret _, w2) =>
          match run None (convert_ply_to_glb E (input_path E) (output_path E)) w2 with
          | (Raise e, w3) => (generic_failure E e, cleaned E w3)
          | (Ret _, w3) =>
              match run tt (upload_to_gcs E GCS_BUCKET (output_path E) (destination_key E)) w3
              with
              | (Raise e, w4) => (generic_failure E e, cleaned E w4)
              | (Ret _, w4) => (Ret (success_response E), cleaned E w4)
              end
          end
      end
  end.

(** From [w] to [w'] no directory was lost and no call was logged. *)
Definition steady (w w' : world) : Prop :=
  dirs_kept w w' /\ calls w' = calls w.

(** [Q] holds of what [m] does from [s]. *)
Definition wp {L A} (m : M L A) (s : frame L) (Q : outcome A -> frame L -> Prop) : Prop :=
  Q (fst (m s)) (snd (m s)).

(** [m] moves the world along [R] and raises only exceptions in [X]. *)
Definition behaves {L A} (R : world -> world -> Prop) (X : exn -> Prop) (m : M L A) : Prop :=
  forall s,
    wp m s (fun r s' =>
      R (globe s) (globe s') /\
      match r with Raise e => X e | Ret _ => True end).

(** The same after the call [c] has been logged. *)
Definition steady_after (c : call) (w w' : world) : Prop := steady (with_call c w) w'.

Definition is_library_error (e : exn) : Prop := exists le, e = LibraryError le.

Definition is_plain_with (prefix : string) (e : exn) : Prop :=
  exists m, e = PlainException (prefix +:+ m).

(** ** Vocabulary of the further properties *)

(** The whole body of a response, chunk after chunk. *)
Definition body_text (r : response) : string :=
  fold_right String.append "" (chunks r).

(** What [download_file] leaves in the world once the body, or what
    arrived of it, is in the file at [p]. *)
Definition downloaded (url p : string) (r : response) (w : world) : world :=
  with_call (CallDownload url p) (with_fs (insert p (File (Bytes (body_text r)))) w).

(** A reading of the clock as [datetime.now()] gives it: a calendar date
    with a year of four digits and a time of day. *)
Definition valid_datetime (d : datetime) : Prop :=
  1000 <= year d < 10 * 1000 /\ 1 <= month d <= 12 /\ 1 <= day d <= 31 /\
  hour d < 24 /\ minute d < 60 /\ second d < 60.

(** Reading a decimal numeral back. *)
Definition decimal_value (s : string) : option nat :=
  Nat.of_uint <$> NilZero.uint_of_string s.

(** Sample collaborators that fail. *)
Module Faults.

(** A body that breaks off after its first chunk. *)
Definition broken_stream (url : string) : http_result :=
  HttpReturns {| status_code := 200; reason := "OK"; resp_url := url;
                 chunks := ["ply"];
                 stream_error :=
                   Some (LibError "ChunkedEncodingError"
                           "Connection broken: IncompleteRead") |}.

Definition interrupted : env :=
  Scenario.make broken_stream Scenario.pdal "k3x9q2ab" "w8_1zr4c".

(** [json.dump] fails, and so may making the object public. *)
Definition make (dump acl : option lib_error) : env :=
  {| tempdir := "/tmp";
     mkdtemp_name := "k3x9q2ab";
     mkdtemp_error := None;
     http_get := Scenario.serve 200 "OK" ["ply"; "data"];
     open_error := fun _ => None;
     ntf_name := "w8_1zr4c";
     ntf_error := None;
     dump_error := dump;
     close_error := None;
     run_process := Scenario.pdal;
     signal_name := fun _ => None;
     now := Scenario.noon;
     gcs_client_error := None;
     gcs_upload_error := None;
     gcs_acl_error := acl |}.

Definition dump_fails : env :=
  make (Some (LibError "OSError" "[Errno 28] No space left on device")) None.

Definition acl_fails : env :=
  make None (Some (LibError "Forbidden" "403 PUT: insufficient permission")).

(** A world in which the converted file is already in place. *)
Definition with_mesh : world :=
  with_fs (insert "/data/out.glb" (File (Bytes "glTF"))) Scenario.empty_world.

End Faults.

(** ** test_api.py

    The script is a client of the service.  What its requests meet is a
    [transport]: the call raises, or an answer comes back, with what
    [response.json()] makes of its body ([None] when the body is no
    JSON).  JSON values that are no objects are all alike to the script,
    which only subscripts by name.  What the script prints is left
    out. *)

Record answer : Type := Answer {
  ans_status : Z;
  ans_reason : string;
  ans_url : string;
  ans_json : option pyval
}.

Inductive client_result : Type :=
| ClientRaises (e : lib_error)
| ClientAnswers (a : answer).

Definition transport : Type :=
  string -> gmap string string -> world -> client_result * world.

Section TestApi.

Variable T : transport.

(** [requests.get(url, params=params)] on the client side *)
Definition client_get (url : string) (params : gmap string string) : M unit answer :=
  fun s =>
    match T url params (globe s) with
    | (ClientRaises e, w') => (Raise (LibraryError e), Frame (locals s) w')
    | (ClientAnswers a, w') => (Ret a, Frame (locals s) w')
    end.

(** [response.raise_for_status()] *)
Definition check_status (a : answer) : M unit unit :=
  raise_for_status
    {| status_code := ans_status a; reason := ans_reason a; resp_url := ans_url a;
       chunks := []; stream_error := None |}.

(** [response.json()] *)
Definition response_json (a : answer) : M unit pyval :=
  match ans_json a with
  | Some v => ret v
  | None =>
      raise (LibraryError (LibError "JSONDecodeError"
                             "Expecting value: line 1 column 1 (char 0)"))
  end.

(** [result[key]] for a text [key] *)
Definition subscript (result : pyval) (key : string) : M unit pyval :=
  match result with
  | PyDict _ =>
      match py_get key result with
      | Some v => ret v
      | None => raise (LibraryError (LibError "KeyError" (Str.repr key)))
      end
  | PyList _ =>
      raise (LibraryError (LibError "TypeError"
                             "list indices must be integers or slices, not str"))
  | PyStr _ =>
      raise (LibraryError (LibError "TypeError" "string indices must be integers"))
  end.

(** The classes the [except] clauses of [test_conversion] name. *)
Definition is_timeout (e : exn) : bool :=
  match e with
  | LibraryError le =>
      bool_decide (err_class le ∈ ["Timeout"; "ConnectTimeout"; "ReadTimeout"])
  | _ => false
  end.

Definition is_http_error (e : exn) : bool :=
  match e with
  | LibraryError le => String.eqb (err_class le) "HTTPError"
  | _ => false
  end.

(** [test_health_check(base_url)] *)
Definition test_health_check (base_url : string) : M unit bool :=
  try_except
    (response <- client_get (base_url +:+ "/health") ∅ ;;
     check_status response ;;
     response_json response ;;
     ret true)
    (fun e => ret false).

(** [test_conversion(base_url, ply_url)]; [ply_url] is [None] by default. *)
Definition test_conversion (base_url : string) (ply_url : option string) : M unit bool :=
  match ply_url with
  | None => ret false
  | Some ply_url =>
      if String.eqb ply_url "" then ret false
      else
        try_except
          (response <- client_get (base_url +:+ "/convert") {["url" := ply_url]} ;;
           check_status response ;;
           result <- response_json response ;;
           subscript result "glb_url" ;;
           subscript result "message" ;;
           ret true)
          (fun e =>
             if is_timeout e then ret false
             else if is_http_error e then ret false
             else ret false)
  end.

(** The script run as a program: the value is the exit status. *)
Definition test_api_main (argv : list string) : M unit Z :=
  let base_url := "http://localhost:8000" in
  health_ok <- call_fn tt (test_health_check base_url) ;;
  if negb health_ok then ret 1%Z
  else
    match argv with
    | _ :: ply_url :: _ =>
        conversion_ok <- call_fn tt (test_conversion base_url (Some ply_url)) ;;
        if conversion_ok then ret 0%Z else ret 1%Z
    | _ => ret 0%Z
    end.

End TestApi.

(** The transport delivers to the service: a GET the application routes
    is answered by the application, body and status. *)
Definition delivers_to (T : transport) (E : env) (base_url : string) : Prop :=
  forall path params w resp w',
    app_get E path params w = Some (resp, w') ->
    exists why,
      T (base_url +:+ path) params w
      = (ClientAnswers (Answer (status resp) why (base_url +:+ path) (Some (body resp))), w').

(** The part of [url] after [base], when [url] starts with it. *)
Fixpoint strip_prefix (base url : string) : option string :=
  match base with
  | EmptyString => Some url
  | String c base' =>
      match url with
      | EmptyString => None
      | String c' url' =>
          if Ascii.ascii_dec c c' then strip_prefix base' url' else None
      end
  end.

(** A transport that hands every request under [base_url] to the
    application, and finds nobody anywhere else. *)
Definition loopback (E : env) (base_url : string) : transport :=
  fun url params w =>
    match strip_prefix base_url url with
    | Some path =>
        match app_get E path params w with
        | Some (resp, w') =>
            (ClientAnswers (Answer (status resp) "" url (Some (body resp))), w')
        | None =>
            (ClientAnswers (Answer 404 "Not Found" url (Some (detail_body "Not Found"))), w)
        end
    | None =>
        (ClientRaises (LibError "ConnectionError" "Failed to establish a new connection"), w)
    end.

(** What [test_conversion] asks of an answer: a status that is no error,
    and a JSON object with the two fields it prints. *)
Definition conversion_accepted (a : answer) : bool :=
  negb (error_status (ans_status a)) &&
  match ans_json a with
  | Some (PyDict entries) =>
      bool_decide (is_Some (py_get "glb_url" (PyDict entries))) &&
      bool_decide (is_Some (py_get "message" (PyDict entries)))
  | _ => false
  end.

(** * Proofs *)

(** ** Text *)

Lemma append_nil (s : string) : "" +:+ s = s.
Proof. reflexivity. Qed.

Lemma append_cons (c : ascii) (a b : string) : String c a +:+ b = String c (a +:+ b).
Proof. reflexivity. Qed.

Lemma append_assoc (a b c : string) : (a +:+ b) +:+ c = a +:+ (b +:+ c).
Proof.
  induction a as [|x a IH]; [done|].
  by rewrite !append_cons, IH.
Qed.

Lemma prefix_nil (s : string) : String.prefix "" s = true.
Proof. by destruct s. Qed.

Lemma prefix_append (p s : string) : String.prefix p (p +:+ s) = true.
Proof.
  induction p as [|c p IH].
  - apply prefix_nil.
  - rewrite append_cons. simpl. by destruct (Ascii.ascii_dec c c).
Qed.

Lemma prefix_true_inv (p s : string) :
  String.prefix p s = true -> exists rest, s = p +:+ rest.
Proof.
  revert s. induction p as [|c p IH]; intros s H.
  - by exists s.
  - destruct s as [|c' s]; simpl in H; [done|].
    destruct (Ascii.ascii_dec c c') as [->|]; [|done].
    destruct (IH _ H) as [rest ->]. by exists rest.
Qed.

(** [containsb] finds every occurrence [contains] speaks of. *)
Lemma contains_containsb (s t : string) : Str.contains s t -> Str.containsb s t = true.
Proof.
  intros (pre & post & ->).
  induction pre as [|c pre IH].
  - rewrite append_nil.
    assert (String.prefix t (t +:+ post) = true) as Hp by apply prefix_append.
    destruct (t +:+ post); simpl in *; by rewrite Hp.
  - rewrite append_cons. simpl. rewrite IH. apply orb_true_r.
Qed.

Lemma containsb_false (s t : string) : Str.containsb s t = false -> ~ Str.contains s t.
Proof. intros H Hc. apply contains_containsb in Hc. congruence. Qed.

(** ** Paths and the file system *)

Lemma at_or_under_refl (d : string) : Os.at_or_under d d = true.
Proof. unfold Os.at_or_under. by rewrite String.eqb_refl. Qed.

Lemma lookup_remove_tree (d p : string) (m : gmap string node) :
  Os.remove_tree d m !! p = if Os.at_or_under d p then None else m !! p.
Proof.
  unfold Os.remove_tree.
  destruct (Os.at_or_under d p) eqn:Hu.
  - apply map_lookup_filter_None. right. intros x _. simpl. congruence.
  - destruct (m !! p) as [x|] eqn:Hm.
    + apply map_lookup_filter_Some. done.
    + apply map_lookup_filter_None. by left.
Qed.

Lemma remove_tree_subseteq (d : string) (m : gmap string node) : Os.remove_tree d m ⊆ m.
Proof. apply map_filter_subseteq. Qed.

Lemma write_one_dir (m : gmap string node) (pc : string * content) (d : string) :
  m !! d = Some Dir -> Os.write_one m pc !! d = Some Dir.
Proof.
  intros Hd. unfold Os.write_one.
  destruct (decide (fst pc = d)) as [->|Hne].
  - by rewrite Hd.
  - destruct (m !! fst pc) as [[|]|]; by rewrite ?lookup_insert_ne.
Qed.

Lemma write_one_file (m : gmap string node) (pc : string * content) (p : string) :
  is_file m p -> is_file (Os.write_one m pc) p.
Proof.
  intros [c Hc]. unfold Os.write_one, is_file.
  destruct (decide (fst pc = p)) as [->|Hne].
  - rewrite Hc, lookup_insert_eq. eauto.
  - destruct (m !! fst pc) as [[|]|]; rewrite ?lookup_insert_ne; eauto.
Qed.

Lemma apply_writes_dir (ws : list (string * content)) (m : gmap string node) (d : string) :
  m !! d = Some Dir -> Os.apply_writes ws m !! d = Some Dir.
Proof.
  unfold Os.apply_writes. revert m.
  induction ws as [|pc ws IH]; intros m Hd; simpl; [done|].
  apply IH. by apply write_one_dir.
Qed.

Lemma apply_writes_file (ws : list (string * content)) (m : gmap string node) (p : string) :
  is_file m p -> is_file (Os.apply_writes ws m) p.
Proof.
  unfold Os.apply_writes. revert m.
  induction ws as [|pc ws IH]; intros m Hp; simpl; [done|].
  apply IH. by apply write_one_file.
Qed.

Lemma dirs_kept_refl (w : world) : dirs_kept w w.
Proof. by intros d. Qed.

Lemma dirs_kept_trans (w1 w2 w3 : world) :
  dirs_kept w1 w2 -> dirs_kept w2 w3 -> dirs_kept w1 w3.
Proof. intros H12 H23 d Hd. auto. Qed.

(** ** The monad *)

(** Running the monad's own operations, and nothing else. *)
Ltac py_simpl :=
  cbv beta iota zeta delta
    [bind ret raise get_world modify_world get_local set_local try_except
     try_finally call_fn run];
  cbn [locals globe fst snd fs store calls with_fs with_store with_call].

Ltac py_simpl_in H :=
  cbv beta iota zeta delta
    [bind ret raise get_world modify_world get_local set_local try_except
     try_finally call_fn run] in H;
  cbn [locals globe fst snd fs store calls with_fs with_store with_call] in H.

Section Wp.

Context {L : Type}.

Lemma wp_elim {A} (m : M L A) s Q r s' : wp m s Q -> m s = (r, s') -> Q r s'.
Proof. unfold wp. intros H Heq. by rewrite Heq in H. Qed.

Lemma wp_intro {A} (m : M L A) s (Q : outcome A -> frame L -> Prop) :
  (forall r s', m s = (r, s') -> Q r s') -> wp m s Q.
Proof. intros H. unfold wp. apply H. by destruct (m s). Qed.

Lemma wp_mono {A} (m : M L A) s (Q Q' : outcome A -> frame L -> Prop) :
  wp m s Q -> (forall r s', Q r s' -> Q' r s') -> wp m s Q'.
Proof. unfold wp. auto. Qed.

Lemma wp_bind {A B} (m : M L A) (k : A -> M L B) s Q :
  wp m s (fun r s' =>
    match r with
    | Ret a => wp (k a) s' Q
    | Raise e => Q (Raise e) s'
    end) ->
  wp (bind m k) s Q.
Proof. unfold wp, bind. by destruct (m s) as [[a|e] s']. Qed.

Lemma wp_try_except {A} (body : M L A) handler s Q :
  wp body s (fun r s' =>
    match r with
    | Ret a => Q (Ret a) s'
    | Raise e => wp (handler e) s' Q
    end) ->
  wp (try_except body handler) s Q.
Proof. unfold wp, try_except. by destruct (body s) as [[a|e] s']. Qed.

Lemma wp_try_finally {A} (body : M L A) fin s Q :
  wp body s (fun r s' =>
    wp fin s' (fun rf s'' =>
      match rf with
      | Ret _ => Q r s''
      | Raise e => Q (Raise e) s''
      end)) ->
  wp (try_finally body fin) s Q.
Proof.
  unfold wp, try_finally. destruct (body s) as [r s']. simpl.
  by destruct (fin s') as [[u|e] s''].
Qed.

Lemma wp_call_fn {L' A} (init : L') (m : M L' A) (s : frame L) Q :
  wp m (Frame init (globe s)) (fun r s' => Q r (Frame (locals s) (globe s'))) ->
  wp (call_fn init m) s Q.
Proof. unfold wp, call_fn. by destruct (m (Frame init (globe s))). Qed.

End Wp.

(** ** Computations that keep directories and the log *)

Lemma steady_refl (w : world) : steady w w.
Proof. split; [apply dirs_kept_refl | done]. Qed.

Lemma steady_trans (w1 w2 w3 : world) : steady w1 w2 -> steady w2 w3 -> steady w1 w3.
Proof.
  intros [Hd Hc] [Hd' Hc']. split; [by eapply dirs_kept_trans | congruence].
Qed.

Lemma steady_with_fs (f : gmap string node -> gmap string node) (w : world) :
  (forall d, fs w !! d = Some Dir -> f (fs w) !! d = Some Dir) -> steady w (with_fs f w).
Proof. intros H. split; [exact H | done]. Qed.

Lemma steady_with_store f (w : world) : steady w (with_store f w).
Proof. split; [by intros d | done]. Qed.

Section Behaves.

Context {L : Type}.
Variable X : exn -> Prop.

Lemma behaves_ret {A} (a : A) : behaves (L:=L) steady X (ret a).
Proof. intros s. unfold wp. simpl. auto using steady_refl. Qed.

Lemma behaves_raise {A} (e : exn) : X e -> behaves (L:=L) (A:=A) steady X (raise e).
Proof. intros He s. unfold wp. simpl. auto using steady_refl. Qed.

Lemma behaves_bind {A B} (m : M L A) (k : A -> M L B) :
  behaves steady X m -> (forall a, behaves steady X (k a)) -> behaves steady X (bind m k).
Proof.
  intros Hm Hk s. apply wp_bind. eapply wp_mono; [apply Hm|].
  intros [a|e] s' (Hs & Hx); [|done].
  eapply wp_mono; [apply Hk|].
  intros r s'' (Hs' & Hx').
  split; [by eapply steady_trans | done].
Qed.

Lemma behaves_get_world : behaves (L:=L) steady X get_world.
Proof. intros s. unfold wp. simpl. auto using steady_refl. Qed.

Lemma behaves_get_local : behaves (L:=L) steady X get_local.
Proof. intros s. unfold wp. simpl. auto using steady_refl. Qed.

Lemma behaves_set_local (v : L) : behaves steady X (set_local v).
Proof. intros s. unfold wp. simpl. auto using steady_refl. Qed.

Lemma behaves_modify_fs (f : gmap string node -> gmap string node) :
  (forall m d, m !! d = Some Dir -> f m !! d = Some Dir) ->
  behaves (L:=L) steady X (modify_world (with_fs f)).
Proof.
  intros Hf s. unfold wp. simpl. split; [|done].
  apply steady_with_fs. intros d. apply Hf.
Qed.

Lemma behaves_modify_store f : behaves (L:=L) steady X (modify_world (with_store f)).
Proof.
  intros s. unfold wp. simpl. split; [|done].
  apply steady_with_store.
Qed.

Lemma behaves_weaken {A} (X' : exn -> Prop) (m : M L A) :
  (forall e, X' e -> X e) -> behaves steady X' m -> behaves steady X m.
Proof.
  intros HX Hm s. eapply wp_mono; [apply Hm|].
  intros [a|e] s' (Hs & Hx); auto.
Qed.

(** A function that logs its call and then keeps the world steady. *)
Lemma behaves_logged {A} (c : call) (m : M L A) :
  behaves steady X m ->
  behaves (steady_after c) X (modify_world (with_call c) ;; m).
Proof.
  intros Hm s. apply wp_bind. unfold wp at 1. simpl.
  eapply wp_mono; [apply Hm|]. intros r s' (Hs & Hx). done.
Qed.

End Behaves.

(** [try: body  except: handler] where the handler re-raises in [X]. *)
Lemma behaves_try_except {L A} (X X' : exn -> Prop) (body : M L A) handler :
  behaves steady X' body -> (forall e, behaves steady X (handler e)) ->
  behaves steady X (try_except body handler).
Proof.
  intros Hb Hh s. apply wp_try_except. eapply wp_mono; [apply Hb|].
  intros [a|e] s' (Hs & Hx); [done|].
  eapply wp_mono; [apply Hh|].
  intros r s'' (Hs' & Hx').
  split; [by eapply steady_trans | done].
Qed.

(** [try: body  finally: fin]: when [fin] raises, its exception is the one
    that leaves. *)
Lemma behaves_try_finally {L A} (X : exn -> Prop) (body : M L A) fin :
  behaves steady X body -> behaves steady X fin ->
  behaves steady X (try_finally body fin).
Proof.
  intros Hb Hf s. apply wp_try_finally. eapply wp_mono; [apply Hb|].
  intros r s' (Hs & Hx).
  eapply wp_mono; [apply Hf|].
  intros [u|e] s'' (Hs' & Hx'); (split; [by eapply steady_trans | done]).
Qed.

Lemma behaves_call_fn {L L' A} R (X : exn -> Prop) (init : L') (m : M L' A) :
  behaves R X m -> behaves (L:=L) R X (call_fn init m).
Proof.
  intros Hm s. apply wp_call_fn. eapply wp_mono; [apply Hm|].
  intros r s' (Hs & Hx). done.
Qed.

(** ** The library calls keep the world steady *)

Lemma library_error_intro (le : lib_error) : is_library_error (LibraryError le).
Proof. by exists le. Qed.

Lemma os_error_is_library cls n msg p : is_library_error (Os.os_error cls n msg p).
Proof. unfold Os.os_error. apply library_error_intro. Qed.

Section LibrarySteady.

Context {L : Type}.
Variable E : env.
Variable X : exn -> Prop.
Hypothesis X_library : forall e, is_library_error e -> X e.

Lemma X_lib (le : lib_error) : X (LibraryError le).
Proof using X_library. apply X_library, library_error_intro. Qed.

Lemma X_os cls n msg p : X (Os.os_error cls n msg p).
Proof using X_library. apply X_library, os_error_is_library. Qed.

Lemma path_exists_steady p : behaves (L:=L) steady X (Os.path_exists p).
Proof.
  unfold Os.path_exists. apply behaves_bind; [apply behaves_get_world|].
  intros w. apply behaves_ret.
Qed.

Lemma unlink_steady p : behaves (L:=L) steady X (Os.unlink p).
Proof using X_library.
  intros s. unfold wp, Os.unlink. py_simpl.
  destruct (fs (globe s) !! p) as [[c|]|] eqn:Hp; py_simpl.
  - split; [|done]. apply steady_with_fs. intros d Hd.
    rewrite lookup_delete_ne; [done | congruence].
  - split; [apply steady_refl | apply X_os].
  - split; [apply steady_refl | apply X_os].
Qed.

Lemma create_file_steady p : behaves (L:=L) steady X (Os.create_file p).
Proof using X_library.
  intros s. unfold wp, Os.create_file. py_simpl.
  destruct (fs (globe s) !! p) as [[c|]|] eqn:Hp; py_simpl.
  - split; [|done]. apply steady_with_fs. intros d Hd.
    rewrite lookup_insert_ne; [done | congruence].
  - split; [apply steady_refl | apply X_os].
  - split; [|done]. apply steady_with_fs. intros d Hd.
    rewrite lookup_insert_ne; [done | congruence].
Qed.

Lemma append_file_steady p chunk : behaves (L:=L) steady X (Os.append_file p chunk).
Proof.
  unfold Os.append_file. apply behaves_modify_fs. intros m d Hd.
  destruct (m !! p) as [[[old|v]|]|]; by apply write_one_dir.
Qed.

Lemma mkdtemp_steady : behaves (L:=L) steady X (mkdtemp E).
Proof using X_library.
  intros s. unfold wp, mkdtemp.
  destruct (mkdtemp_error E) as [e|]; py_simpl.
  { split; [apply steady_refl | apply X_lib]. }
  destruct (fs (globe s) !! mkdtemp_path E) as [n|] eqn:Hp; py_simpl.
  - split; [apply steady_refl | apply X_lib].
  - split; [|done]. apply steady_with_fs. intros d Hd.
    rewrite lookup_insert_ne; [done | congruence].
Qed.

Lemma NamedTemporaryFile_steady suffix :
  behaves (L:=L) steady X (NamedTemporaryFile E suffix).
Proof using X_library.
  intros s. unfold wp, NamedTemporaryFile.
  destruct (ntf_error E) as [e|]; py_simpl.
  { split; [apply steady_refl | apply X_lib]. }
  destruct (fs (globe s) !! ntf_path E suffix) as [n|] eqn:Hp; py_simpl.
  - split; [apply steady_refl | apply X_lib].
  - split; [|done]. apply steady_with_fs. intros d Hd.
    rewrite lookup_insert_ne; [done | congruence].
Qed.

Lemma json_dump_steady v p : behaves (L:=L) steady X (json_dump E v p).
Proof using X_library.
  unfold json_dump. destruct (dump_error E) as [e|].
  - apply behaves_raise, X_lib.
  - apply behaves_modify_fs. intros m d Hd. by apply write_one_dir.
Qed.

Lemma file_close_steady : behaves (L:=L) steady X (file_close E).
Proof using X_library.
  unfold file_close. destruct (close_error E) as [e|].
  - apply behaves_raise, X_lib.
  - apply behaves_ret.
Qed.

Lemma requests_get_steady url : behaves (L:=L) steady X (requests_get E url).
Proof using X_library.
  unfold requests_get. destruct (http_get E url) as [e|r].
  - apply behaves_raise, X_lib.
  - apply behaves_ret.
Qed.

Lemma raise_for_status_steady r : behaves (L:=L) steady X (raise_for_status r).
Proof using X_library.
  unfold raise_for_status.
  destruct (_ && _); [apply behaves_raise, X_lib|].
  destruct (_ && _); [apply behaves_raise, X_lib|].
  apply behaves_ret.
Qed.

Lemma open_wb_steady p : behaves (L:=L) steady X (open_wb E p).
Proof using X_library.
  unfold open_wb. destruct (open_error E p) as [e|].
  - apply behaves_raise, X_lib.
  - apply create_file_steady.
Qed.

Lemma write_chunks_steady p cs : behaves (L:=L) steady X (write_chunks p cs).
Proof.
  induction cs as [|c cs IH]; simpl.
  - apply behaves_ret.
  - apply behaves_bind; [apply append_file_steady | intros _; apply IH].
Qed.

Lemma stream_to_steady r p : behaves (L:=L) steady X (stream_to r p).
Proof using X_library.
  unfold stream_to. apply behaves_bind; [apply write_chunks_steady|].
  intros _. destruct (stream_error r) as [e|].
  - apply behaves_raise, X_lib.
  - apply behaves_ret.
Qed.

Lemma storage_Client_steady : behaves (L:=L) steady X (storage_Client E).
Proof using X_library.
  unfold storage_Client. destruct (gcs_client_error E) as [e|].
  - apply behaves_raise, X_lib.
  - apply behaves_ret.
Qed.

Lemma upload_from_filename_steady bucket key source :
  behaves (L:=L) steady X (upload_from_filename E bucket key source).
Proof using X_library.
  unfold upload_from_filename. apply behaves_bind; [apply behaves_get_world|].
  intros w. destruct (fs w !! source) as [[c|]|].
  - destruct (gcs_upload_error E) as [e|].
    + apply behaves_raise, X_lib.
    + apply behaves_modify_store.
  - apply behaves_raise, X_os.
  - apply behaves_raise, X_os.
Qed.

Lemma make_public_steady bucket key : behaves (L:=L) steady X (make_public E bucket key).
Proof using X_library.
  unfold make_public. destruct (gcs_acl_error E) as [e|].
  - apply behaves_raise, X_lib.
  - apply behaves_modify_store.
Qed.

(** The subprocess may also end in a [CalledProcessError]. *)
Lemma subprocess_run_steady argv :
  (forall rc out err, X (CalledProcessError rc argv out err)) ->
  behaves (L:=L) steady X (subprocess_run E argv).
Proof using X_library.
  intros Hcpe. unfold subprocess_run. apply behaves_bind; [apply behaves_get_world|].
  intros w. destruct (run_process E argv (fs w)) as [e|rc out err writes].
  - apply behaves_raise, X_lib.
  - apply behaves_bind.
    + apply behaves_modify_fs. intros m d. apply apply_writes_dir.
    + intros _. destruct (rc =? 0)%Z; [apply behaves_ret | apply behaves_raise, Hcpe].
Qed.

End LibrarySteady.

(** ** converter.py and gcs_handler.py keep the world steady *)

Lemma plain_intro (prefix m : string) : is_plain_with prefix (PlainException (prefix +:+ m)).
Proof. by exists m. Qed.

Lemma download_file_behaves (E : env) (url p : string) :
  behaves (steady_after (CallDownload url p)) is_library_error (download_file E url p).
Proof.
  unfold download_file. apply behaves_logged.
  apply behaves_bind; [by apply requests_get_steady|]. intros r.
  apply behaves_bind; [by apply raise_for_status_steady|]. intros _.
  apply behaves_bind; [by apply open_wb_steady|]. intros _.
  by apply stream_to_steady.
Qed.

Lemma upload_to_gcs_behaves (E : env) (bucket source key : string) :
  behaves (steady_after (CallUpload bucket source key))
    (is_plain_with "GCS upload failed: ") (upload_to_gcs E bucket source key).
Proof.
  unfold upload_to_gcs. apply behaves_logged.
  apply behaves_try_except with (X' := is_library_error).
  - apply behaves_bind; [by apply storage_Client_steady|]. intros _.
    apply behaves_bind; [by apply upload_from_filename_steady|]. intros _.
    by apply make_public_steady.
  - intros e. apply behaves_raise, plain_intro.
Qed.

Lemma convert_ply_to_glb_steady (E : env) (i o : string) :
  behaves (steady_after (CallConvert i o)) (fun _ => True) (convert_ply_to_glb E i o).
Proof.
  unfold convert_ply_to_glb. apply behaves_logged.
  apply behaves_try_finally.
  - apply behaves_try_except with (X' := fun _ => True).
    + apply behaves_bind.
      * unfold write_pipeline.
        apply behaves_bind; [by apply NamedTemporaryFile_steady|]. intros f_name.
        apply behaves_try_finally; [|by apply file_close_steady].
        apply behaves_bind; [by apply json_dump_steady|]. intros _.
        apply behaves_set_local.
      * intros _. apply behaves_bind; [apply behaves_get_local|].
        intros [pipeline_file|]; [|by apply behaves_raise].
        apply behaves_bind; [by apply subprocess_run_steady|].
        intros _. apply behaves_ret.
    + intros e. destruct e; by apply behaves_raise.
  - apply behaves_bind; [apply behaves_get_local|].
    intros [pipeline_file|]; [|apply behaves_ret].
    apply behaves_bind; [by apply path_exists_steady|].
    intros [|]; [by apply unlink_steady | apply behaves_ret].
Qed.

(** ** What the converter does, case by case *)

Lemma write_one_fresh (m : gmap string node) (p : string) (c0 c : content) :
  Os.write_one (<[p := File c0]> m) (p, c) = <[p := File c]> m.
Proof.
  unfold Os.write_one. simpl. rewrite lookup_insert_eq. apply insert_insert_eq.
Qed.

Lemma exists_Some {A} (x : A) : bool_decide (is_Some (Some x)) = true.
Proof. reflexivity. Qed.

Ltac fs_simpl_in H :=
  repeat first
    [ rewrite write_one_fresh in H
    | rewrite lookup_insert_eq in H
    | rewrite exists_Some in H
    | progress py_simpl_in H ].

Lemma descriptor_written_inv (E : env) (i o : string) (w : world) :
  descriptor_written E i o w ->
  ntf_error E = None /\ fs w !! ntf_path E ".json" = None /\ dump_error E = None.
Proof.
  intros [w1 H]. revert H.
  unfold run, NamedTemporaryFile, json_dump. py_simpl.
  destruct (ntf_error E); py_simpl; [done|].
  destruct (fs w !! ntf_path E ".json"); py_simpl; [done|].
  destruct (dump_error E); py_simpl; done.
Qed.

Lemma descriptor_written_intro (E : env) (i o : string) (w : world) :
  ntf_error E = None -> fs w !! ntf_path E ".json" = None -> dump_error E = None ->
  run (@None string)
    (f_name <- NamedTemporaryFile E ".json" ;;
     json_dump E (pipeline_definition i o) f_name)
    (with_call (CallConvert i o) w)
  = (Ret tt,
     with_fs (insert (ntf_path E ".json") (File (JsonText (pipeline_definition i o))))
       (with_call (CallConvert i o) w)).
Proof.
  intros Hntf Hp Hdump.
  unfold run, NamedTemporaryFile, json_dump. py_simpl.
  rewrite Hntf. py_simpl. rewrite Hp. py_simpl. rewrite Hdump. py_simpl.
  unfold with_fs. cbn [fs store calls with_call]. by rewrite write_one_fresh.
Qed.

(** The outcome of [convert_ply_to_glb]: a return means that the tool ran
    on the descriptor and exited with status zero; anything else leaves
    as a plain [Exception]; and a descriptor that was written is gone. *)
Lemma convert_ply_to_glb_outcome (E : env) (i o : string) (w : world) r s' :
  convert_ply_to_glb E i o (Frame None w) = (r, s') ->
  let p := ntf_path E ".json" in
  match r with
  | Ret _ =>
      exists out err writes,
        let m := <[p := File (JsonText (pipeline_definition i o))]> (fs w) in
        fs w !! p = None /\
        run_process E ["pdal"; "pipeline"; p] m = Exited 0 out err writes /\
        fs (globe s') = delete p (Os.apply_writes writes m)
  | Raise e => is_plain_with "PDAL conversion failed: " e
  end /\
  (descriptor_written E i o w -> fs (globe s') !! p = None).
Proof.
  intros H p.
  unfold convert_ply_to_glb, write_pipeline, NamedTemporaryFile, json_dump,
    file_close, subprocess_run, Os.path_exists, Os.unlink, no_usable_name,
    unbound_pipeline_file in H.
  py_simpl_in H. fold p in H.
  destruct (ntf_error E) as [e1|] eqn:Hntf; py_simpl_in H.
  { injection H as <- <-. split; [apply plain_intro|].
    intros Hw. apply descriptor_written_inv in Hw. destruct Hw as (Hw & _). congruence. }
  destruct (fs w !! p) as [n|] eqn:Hp; py_simpl_in H.
  { injection H as <- <-. split; [apply plain_intro|].
    intros Hw. apply descriptor_written_inv in Hw. destruct Hw as (_ & Hw & _).
    fold p in Hw. congruence. }
  destruct (dump_error E) as [e2|] eqn:Hdump; py_simpl_in H.
  { assert (r = Raise (PlainException ("PDAL conversion failed: " +:+
        exn_str E (LibraryError (default e2 (close_error E)))))) as ->.
    { destruct (close_error E); py_simpl_in H; by injection H as <- <-. }
    split; [apply plain_intro|].
    intros Hw. apply descriptor_written_inv in Hw. destruct Hw as (_ & _ & Hw). congruence. }
  destruct (close_error E) as [e3|] eqn:Hclose; fs_simpl_in H.
  { injection H as <- <-. split; [apply plain_intro|].
    intros _. py_simpl. apply lookup_delete_eq. }
  destruct (run_process E _ _) as [e4|rc out err writes] eqn:Hrun; fs_simpl_in H.
  { injection H as <- <-. split; [apply plain_intro|].
    intros _. py_simpl. apply lookup_delete_eq. }
  destruct (apply_writes_file writes
              (<[p := File (JsonText (pipeline_definition i o))]> (fs w)) p) as [c Hc].
  { eexists. apply lookup_insert_eq. }
  destruct (rc =? 0)%Z eqn:Hrc; fs_simpl_in H;
    rewrite Hc in H; fs_simpl_in H; rewrite Hc in H; fs_simpl_in H;
    injection H as <- <-.
  - apply Z.eqb_eq in Hrc as ->. split.
    + exists out, err, writes. py_simpl. by rewrite write_one_fresh.
    + intros _. py_simpl. apply lookup_delete_eq.
  - split; [apply plain_intro|].
    intros _. py_simpl. apply lookup_delete_eq.
Qed.

(** ** The /convert handler, stage by stage *)

Lemma append_nonempty (a b : string) : b <> "" -> a +:+ b <> "".
Proof.
  intros Hb. destruct a as [|c a]; [by rewrite append_nil|].
  by rewrite append_cons.
Qed.

Lemma mkdtemp_path_nonempty (E : env) : String.eqb (mkdtemp_path E) "" = false.
Proof.
  apply String.eqb_neq. unfold mkdtemp_path, Os.path_join, Str.startswith.
  change ("tmp" +:+ mkdtemp_name E) with (String "t" (String "m" (String "p" (mkdtemp_name E)))).
  cbn [String.prefix]. destruct (Ascii.ascii_dec _ _) as [Heq|_]; [discriminate Heq|].
  destruct (_ || _).
  - by apply append_nonempty.
  - apply append_nonempty. by rewrite append_cons.
Qed.

(** A stage that keeps directories keeps the workspace, so that the
    [finally] clause finds it and removes it. *)
Lemma convert_finally_cleans (E : env) (w0 w : world) c :
  fs w0 !! mkdtemp_path E = Some Dir ->
  steady_after c w0 w ->
  convert_finally (Frame (Some (mkdtemp_path E)) w)
  = (Ret tt, Frame (Some (mkdtemp_path E)) (cleaned E w)).
Proof.
  intros Hd [Hk _].
  assert (fs w !! mkdtemp_path E = Some Dir) as Hw by (apply Hk; exact Hd).
  unfold convert_finally, Os.path_exists, Os.rmtree. py_simpl.
  rewrite mkdtemp_path_nonempty. cbn [negb]. py_simpl.
  rewrite Hw, exists_Some. py_simpl. by rewrite Hw.
Qed.

Lemma steady_after_dir (c : call) (w w' : world) (d : string) :
  steady_after c w w' -> fs w !! d = Some Dir -> fs w' !! d = Some Dir.
Proof. intros [Hk _] Hd. by apply Hk. Qed.

(** What a called function did, from a fact about all it can do. *)
Lemma behaves_run {L A} R X (m : M L A) (init : L) (w : world) r s' :
  behaves R X m -> m (Frame init w) = (r, s') ->
  R w (globe s') /\ match r with Raise e => X e | Ret _ => True end.
Proof. intros Hb Hm. exact (wp_elim _ _ _ _ _ (Hb (Frame init w)) Hm). Qed.

Lemma endpoint_staged (E : env) (url : string) (w : world) :
  run None (convert_ply_to_glb_endpoint E url) w = staged E url w.
Proof.
  unfold staged, success_response, input_path, output_path, destination_key,
    convert_ply_to_glb_endpoint, convert_try_body, mkdtemp.
  py_simpl.
  destruct (mkdtemp_error E) as [e|]; py_simpl.
  { unfold convert_except, convert_finally. py_simpl. done. }
  destruct (fs w !! mkdtemp_path E) as [n|] eqn:Hfresh; py_simpl.
  { unfold convert_except, convert_finally, no_usable_name. py_simpl. done. }
  assert (fs (with_fs (insert (mkdtemp_path E) Dir) w) !! mkdtemp_path E = Some Dir) as Hd1
    by apply lookup_insert_eq.
  destruct (download_file E url _ _) as [[[]|e] s2] eqn:Hrun2.
  2:{ destruct (behaves_run _ _ _ _ _ _ _ (download_file_behaves _ _ _) Hrun2)
        as [Hs [le ->]].
      py_simpl. unfold convert_except. py_simpl.
      erewrite convert_finally_cleans by eassumption. done. }
  destruct (behaves_run _ _ _ _ _ _ _ (download_file_behaves _ _ _) Hrun2) as [Hs2 _].
  pose proof (steady_after_dir _ _ _ _ Hs2 Hd1) as Hd2.
  py_simpl.
  destruct (convert_ply_to_glb E _ _ _) as [[[]|e] s3] eqn:Hrun3.
  2:{ destruct (behaves_run _ _ _ _ _ _ _ (convert_ply_to_glb_steady _ _ _) Hrun3)
        as [Hs _].
      destruct (convert_ply_to_glb_outcome _ _ _ _ _ _ Hrun3) as [[m ->] _].
      py_simpl. unfold convert_except. py_simpl.
      erewrite convert_finally_cleans by eassumption. done. }
  destruct (behaves_run _ _ _ _ _ _ _ (convert_ply_to_glb_steady _ _ _) Hrun3) as [Hs3 _].
  pose proof (steady_after_dir _ _ _ _ Hs3 Hd2) as Hd3.
  py_simpl.
  destruct (upload_to_gcs E GCS_BUCKET _ _ _) as [[[]|e] s4] eqn:Hrun4.
  2:{ destruct (behaves_run _ _ _ _ _ _ _ (upload_to_gcs_behaves _ _ _ _) Hrun4)
        as [Hs [m ->]].
      py_simpl. unfold convert_except. py_simpl.
      erewrite convert_finally_cleans by eassumption. done. }
  destruct (behaves_run _ _ _ _ _ _ _ (upload_to_gcs_behaves _ _ _ _) Hrun4) as [Hs4 _].
  py_simpl.
  erewrite convert_finally_cleans by eassumption. done.
Qed.

(** * The claims *)

Lemma mkdtemp_returns (E : env) (w w1 : world) (d : string) :
  run (@None string) (mkdtemp E) w = (Ret d, w1) ->
  d = mkdtemp_path E /\ w1 = with_fs (insert (mkdtemp_path E) Dir) w.
Proof.
  unfold run, mkdtemp.
  destruct (mkdtemp_error E); py_simpl; [done|].
  destruct (fs w !! mkdtemp_path E); py_simpl; [done|].
  intros H. by injection H as <- <-.
Qed.

Lemma lookup_cleaned (E : env) (w : world) (p : string) :
  Os.at_or_under (mkdtemp_path E) p = true -> fs (cleaned E w) !! p = None.
Proof.
  intros Hp. unfold cleaned. cbn [fs with_fs]. by rewrite lookup_remove_tree, Hp.
Qed.

(** Whatever the handler met after the workspace was made, the world it
    leaves is a cleaned one. *)
Lemma staged_cleaned (E : env) (url : string) (w w1 : world) (d : string) :
  run (@None string) (mkdtemp E) w = (Ret d, w1) ->
  exists w4, snd (staged E url w) = cleaned E w4.
Proof.
  intros H. unfold staged. rewrite H.
  destruct (run tt (download_file E url (input_path E)) w1) as [[[]|e2] w2];
    [|by exists w2].
  destruct (run None (convert_ply_to_glb E (input_path E) (output_path E)) w2)
    as [[[]|e3] w3]; [|by exists w3].
  destruct (run tt (upload_to_gcs E GCS_BUCKET (output_path E) (destination_key E)) w3)
    as [[[]|e4] w4]; by exists w4.
Qed.

(** C1.  Whenever [tempfile.mkdtemp] has made the workspace [d], the
    /convert handler leaves a file system in which neither [d] nor
    anything below it exists, whether it returns or raises and whichever
    stage failed. *)
Theorem workspace_removed_on_every_path (E : env) (url : string) (w w1 : world) (d : string) :
  run (@None string) (mkdtemp E) w = (Ret d, w1) ->
  fs w1 !! d = Some Dir /\
  forall p, Os.at_or_under d p = true ->
    fs (snd (run None (convert_ply_to_glb_endpoint E url) w)) !! p = None.
Proof.
  intros Hmk.
  destruct (mkdtemp_returns _ _ _ _ Hmk) as [-> ->].
  split; [apply lookup_insert_eq|].
  intros p Hp. rewrite endpoint_staged.
  destruct (staged_cleaned E url _ _ _ Hmk) as [w4 ->].
  by apply lookup_cleaned.
Qed.

Lemma workspace_removed_witness :
  fs (snd (run None (convert_ply_to_glb_endpoint Scenario.tool_fails Scenario.url)
             Scenario.empty_world))
    !! "/tmp/tmpk3x9q2ab/input.ply" = None.
Proof.
  refine (proj2 (workspace_removed_on_every_path Scenario.tool_fails Scenario.url
                   Scenario.empty_world
                   (with_fs (insert "/tmp/tmpk3x9q2ab" Dir) Scenario.empty_world)
                   "/tmp/tmpk3x9q2ab" _) "/tmp/tmpk3x9q2ab/input.ply" _);
    reflexivity.
Defined.

(** C3.  Once [convert_ply_to_glb] has written its descriptor, the
    descriptor file does not exist when the function is done, whether it
    returns or raises. *)
Theorem descriptor_removed_on_every_path (E : env) (i o : string) (w : world) :
  descriptor_written E i o w ->
  fs (snd (run None (convert_ply_to_glb E i o) w)) !! ntf_path E ".json" = None.
Proof.
  intros Hw. unfold run. cbn [fst snd].
  destruct (convert_ply_to_glb E i o (Frame None w)) as [r s'] eqn:Hrun.
  by apply (convert_ply_to_glb_outcome _ _ _ _ _ _ Hrun).
Qed.

Lemma descriptor_removed_witness :
  fs (snd (run None (convert_ply_to_glb Scenario.tool_fails "/data/in.ply" "/data/out.glb")
             Scenario.empty_world))
    !! "/tmp/tmpw8_1zr4c.json" = None.
Proof.
  apply (descriptor_removed_on_every_path Scenario.tool_fails "/data/in.ply" "/data/out.glb"
           Scenario.empty_world).
  eexists. reflexivity.
Defined.

(** C9.  GET /health answers 200 with the body [{"status": "healthy"}]
    whatever the query string, the collaborators and the world are, and
    leaves the world as it was. *)
Theorem health_always_healthy (E : env) (query : gmap string string) (w : world) :
  app_get E "/health" query w
  = Some ({| status := 200; body := PyDict [("status", PyStr "healthy")] |}, w).
Proof. reflexivity. Qed.

Lemma get_convert_staged (E : env) (url : string) (w : world) :
  get_convert E url w
  = (respond encode_conversion (fst (staged E url w)), snd (staged E url w)).
Proof.
  unfold get_convert. rewrite endpoint_staged. by destruct (staged E url w).
Qed.

(** A return of [convert_ply_to_glb], seen from outside. *)
Lemma convert_returns_inv (E : env) (i o : string) (w w' : world) :
  run None (convert_ply_to_glb E i o) w = (Ret tt, w') ->
  exists out err writes,
    let p := ntf_path E ".json" in
    let m := <[p := File (JsonText (pipeline_definition i o))]> (fs w) in
    run_process E ["pdal"; "pipeline"; p] m = Exited 0 out err writes /\
    fs w' = delete p (Os.apply_writes writes m).
Proof.
  unfold run. cbn [fst snd].
  destruct (convert_ply_to_glb E i o (Frame None w)) as [r s'] eqn:Hrun.
  intros H. injection H as -> <-.
  destruct (convert_ply_to_glb_outcome _ _ _ _ _ _ Hrun) as [(out & err & writes & H) _].
  exists out, err, writes. apply H.
Qed.

(** C4 as stated fails: a tool that exits with status zero without
    writing anything lets [convert_ply_to_glb] return, and no output file
    exists. *)
Lemma converter_returns_without_output :
  run_process Scenario.tool_idles ["pdal"; "pipeline"; "/tmp/tmpw8_1zr4c.json"]
    (<["/tmp/tmpw8_1zr4c.json" :=
         File (JsonText (pipeline_definition "/data/in.ply" "/data/out.glb"))]> ∅)
  = Exited 0 "" "" [] /\
  fst (run None (convert_ply_to_glb Scenario.tool_idles "/data/in.ply" "/data/out.glb")
         Scenario.empty_world) = Ret tt /\
  fs (snd (run None (convert_ply_to_glb Scenario.tool_idles "/data/in.ply" "/data/out.glb")
             Scenario.empty_world)) !! "/data/out.glb" = None.
Proof. repeat split; reflexivity. Qed.

(** C4, amended.  [convert_ply_to_glb] returns only when the subprocess,
    run on the descriptor, exits with status zero; the files it leaves
    are those the tool left, less the descriptor.  It does not look for
    the output file. *)
Theorem converter_returns_only_on_exit_zero (E : env) (i o : string) (w w' : world) :
  run None (convert_ply_to_glb E i o) w = (Ret tt, w') ->
  exists out err writes,
    let p := ntf_path E ".json" in
    let m := <[p := File (JsonText (pipeline_definition i o))]> (fs w) in
    run_process E ["pdal"; "pipeline"; p] m = Exited 0 out err writes /\
    fs w' = delete p (Os.apply_writes writes m).
Proof. apply convert_returns_inv. Qed.

Lemma converter_returns_only_on_exit_zero_witness :
  exists out err writes,
    run_process Scenario.happy ["pdal"; "pipeline"; "/tmp/tmpw8_1zr4c.json"]
      (<["/tmp/tmpw8_1zr4c.json" :=
           File (JsonText (pipeline_definition "/data/in.ply" "/data/out.glb"))]>
         (<["/data/in.ply" := File (Bytes "ply")]> ∅))
    = Exited 0 out err writes.
Proof.
  pose (w := with_fs (insert "/data/in.ply" (File (Bytes "ply"))) Scenario.empty_world).
  pose (rw := run None (convert_ply_to_glb Scenario.happy "/data/in.ply" "/data/out.glb") w).
  assert (rw = (Ret tt, snd rw)) as Hrun by (vm_compute; reflexivity).
  destruct (converter_returns_only_on_exit_zero Scenario.happy "/data/in.ply" "/data/out.glb"
              w (snd rw) Hrun)
    as (out & err & writes & H & _).
  exists out, err, writes. exact H.
Defined.

Lemma pipeline_definition_stages (i o : string) :
  ply_to_gltf_pipeline i o (pipeline_definition i o).
Proof.
  split; [reflexivity|].
  eexists _, _, _. repeat split; reflexivity.
Qed.

(** C7.  The descriptor [convert_ply_to_glb] serializes has exactly three
    stages, in this order: [readers.ply] reading the input path,
    [filters.delaunay], and [writers.gltf] writing the output path.  It
    is what the descriptor file holds once written, and what the tool is
    run on. *)
Theorem descriptor_has_three_stages (E : env) (i o : string) (w : world) :
  ply_to_gltf_pipeline i o (pipeline_definition i o) /\
  (descriptor_written E i o w ->
   fs (snd (run (@None string)
              (f_name <- NamedTemporaryFile E ".json" ;;
               json_dump E (pipeline_definition i o) f_name)
              (with_call (CallConvert i o) w)))
     !! ntf_path E ".json"
   = Some (File (JsonText (pipeline_definition i o)))) /\
  (forall w', run None (convert_ply_to_glb E i o) w = (Ret tt, w') ->
   exists out err writes,
     run_process E ["pdal"; "pipeline"; ntf_path E ".json"]
       (<[ntf_path E ".json" := File (JsonText (pipeline_definition i o))]> (fs w))
     = Exited 0 out err writes).
Proof.
  split; [apply pipeline_definition_stages|]. split.
  - intros Hw. destruct (descriptor_written_inv _ _ _ _ Hw) as (Hntf & Hp & Hdump).
    rewrite descriptor_written_intro by done.
    cbn [snd fs with_fs]. apply lookup_insert_eq.
  - intros w' Hrun.
    destruct (convert_returns_inv _ _ _ _ _ Hrun) as (out & err & writes & H & _).
    by exists out, err, writes.
Qed.

Lemma descriptor_has_three_stages_witness :
  fs (snd (run (@None string)
             (f_name <- NamedTemporaryFile Scenario.happy ".json" ;;
              json_dump Scenario.happy (pipeline_definition "/data/in.ply" "/data/out.glb")
                f_name)
             (with_call (CallConvert "/data/in.ply" "/data/out.glb") Scenario.empty_world)))
    !! "/tmp/tmpw8_1zr4c.json"
  = Some (File (JsonText (pipeline_definition "/data/in.ply" "/data/out.glb"))).
Proof.
  apply (proj1 (proj2 (descriptor_has_three_stages Scenario.happy "/data/in.ply"
                         "/data/out.glb" Scenario.empty_world))).
  eexists. reflexivity.
Defined.

(** The handler's outcome is the success response or an [HTTPException]
    with status 500 raised by the generic clause. *)
Lemma staged_outcome (E : env) (url : string) (w : world) :
  fst (staged E url w) = Ret (success_response E) \/
  exists e, fst (staged E url w) = generic_failure E e.
Proof.
  unfold staged.
  destruct (run (@None string) (mkdtemp E) w) as [[d|e1] w1]; [|by right; exists e1].
  destruct (run tt (download_file E url (input_path E)) w1) as [[[]|e2] w2];
    [|by right; exists e2].
  destruct (run None (convert_ply_to_glb E (input_path E) (output_path E)) w2)
    as [[[]|e3] w3]; [|by right; exists e3].
  destruct (run tt (upload_to_gcs E GCS_BUCKET (output_path E) (destination_key E)) w3)
    as [[[]|e4] w4]; [by left | by right; exists e4].
Qed.

(** C8.  [get_public_url] is the fixed template applied to the bucket and
    the blob name, and every 200 answer of /convert carries the URL made
    from the hard-coded bucket and the key
    [conversions/converted_<timestamp>.glb]. *)
Theorem glb_url_follows_template (E : env) (url : string) (w : world) :
  status (fst (get_convert E url w)) = 200%Z ->
  (forall bucket key,
     get_public_url bucket key = "https://storage.googleapis.com/" +:+ bucket +:+ "/" +:+ key) /\
  body (fst (get_convert E url w))
  = PyDict [
      ("glb_url",
       PyStr ("https://storage.googleapis.com/doodle-world-static/conversions/converted_"
              +:+ strftime (now E) +:+ ".glb"));
      ("message", PyStr "Conversion successful")
    ].
Proof.
  rewrite get_convert_staged. cbn [fst].
  destruct (staged_outcome E url w) as [-> | [e ->]]; cbn.
  - intros _. split; reflexivity.
  - discriminate.
Qed.

Lemma glb_url_follows_template_witness :
  body (fst (get_convert Scenario.happy Scenario.url Scenario.empty_world))
  = PyDict [
      ("glb_url",
       PyStr "https://storage.googleapis.com/doodle-world-static/conversions/converted_20240309_120005.glb");
      ("message", PyStr "Conversion successful")
    ].
Proof.
  apply (glb_url_follows_template Scenario.happy Scenario.url Scenario.empty_world).
  vm_compute. reflexivity.
Defined.

(** A response with an error status ends [download_file] at
    [raise_for_status]: nothing but the call has happened. *)
Lemma download_file_error_status (E : env) (url p : string) (w : world) (r : response) :
  http_get E url = HttpReturns r ->
  error_status (status_code r) = true ->
  run tt (download_file E url p) w
  = (Raise (HTTPError (if (status_code r <? 500)%Z then "Client" else "Server") r),
     with_call (CallDownload url p) w).
Proof.
  intros Hget Hst. unfold error_status in Hst.
  apply andb_true_iff in Hst as [Hlo Hhi].
  unfold run, download_file, requests_get, raise_for_status. py_simpl.
  rewrite Hget. py_simpl. rewrite Hlo. cbn [andb].
  destruct (status_code r <? 500)%Z eqn:H500; py_simpl; [done|].
  assert ((500 <=? status_code r)%Z = true) as -> by lia.
  rewrite Hhi. py_simpl. done.
Qed.

Lemma mkdtemp_raises (E : env) (w w1 : world) (e : exn) :
  run (@None string) (mkdtemp E) w = (Raise e, w1) -> w1 = w.
Proof.
  unfold run, mkdtemp.
  destruct (mkdtemp_error E); py_simpl; [by intros [= _ <-]|].
  destruct (fs w !! mkdtemp_path E); py_simpl; [by intros [= _ <-] | done].
Qed.

Lemma fresh_workspace_cleaned (E : env) (w : world) :
  fs w !! mkdtemp_path E = None ->
  Os.remove_tree (mkdtemp_path E) (<[mkdtemp_path E := Dir]> (fs w)) ⊆ fs w.
Proof.
  intros Hfresh. apply map_subseteq_spec. intros p n.
  rewrite lookup_remove_tree.
  destruct (Os.at_or_under (mkdtemp_path E) p) eqn:Hu; [done|].
  destruct (decide (p = mkdtemp_path E)) as [->|Hne].
  - by rewrite at_or_under_refl in Hu.
  - by rewrite lookup_insert_ne.
Qed.

(** C6 as stated fails: 300 is no success status, yet the body of the
    answer is stored as the input file, the converter is called, and the
    500 that follows is the converter's. *)
Lemma redirect_status_reaches_converter :
  http_get Scenario.multiple_choices Scenario.url
  = Scenario.serve 300 "Multiple Choices" ["<html>choices</html>"] Scenario.url /\
  success_status 300 = false /\
  fs (snd (run tt (download_file Scenario.multiple_choices Scenario.url
                     "/tmp/tmpk3x9q2ab/input.ply")
             (with_fs (insert "/tmp/tmpk3x9q2ab" Dir) Scenario.empty_world)))
    !! "/tmp/tmpk3x9q2ab/input.ply"
  = Some (File (Bytes "<html>choices</html>")) /\
  count_calls is_convert_call
    (snd (get_convert Scenario.multiple_choices Scenario.url Scenario.empty_world)) = 1 /\
  fst (get_convert Scenario.multiple_choices Scenario.url Scenario.empty_world)
  = {| status := 500;
       body := detail_body
         "An error occurred: PDAL conversion failed: Command '['pdal', 'pipeline', '/tmp/tmpw8_1zr4c.json']' returned non-zero exit status 1." |}.
Proof. repeat split; vm_compute; reflexivity. Qed.

(** C6, amended.  When the fetch returns an error status (400 to 599,
    the statuses [raise_for_status] raises for), [download_file] raises
    before it opens the input file, /convert answers 500, the request
    calls neither the converter nor the publisher, and it leaves no file
    that was not there before. *)
Theorem error_status_stops_the_request (E : env) (url : string) (w : world) (r : response) :
  http_get E url = HttpReturns r ->
  error_status (status_code r) = true ->
  (forall p w0, exists e,
     run tt (download_file E url p) w0 = (Raise e, with_call (CallDownload url p) w0)) /\
  status (fst (get_convert E url w)) = 500%Z /\
  count_calls is_convert_call (snd (get_convert E url w)) = count_calls is_convert_call w /\
  count_calls is_upload_call (snd (get_convert E url w)) = count_calls is_upload_call w /\
  fs (snd (get_convert E url w)) ⊆ fs w.
Proof.
  intros Hget Hst. split.
  { intros p w0. eexists. by apply download_file_error_status. }
  rewrite get_convert_staged. cbn [fst snd]. unfold staged.
  destruct (run (@None string) (mkdtemp E) w) as [[d|e1] w1] eqn:Hmk.
  - destruct (mkdtemp_returns _ _ _ _ Hmk) as [-> ->].
    rewrite (download_file_error_status E url _ _ r Hget Hst). cbn [fst snd].
    repeat split; try reflexivity.
    unfold cleaned. cbn [fs with_fs with_call].
    apply fresh_workspace_cleaned.
    revert Hmk. unfold run, mkdtemp.
    destruct (mkdtemp_error E); py_simpl; [done|].
    by destruct (fs w !! mkdtemp_path E).
  - apply mkdtemp_raises in Hmk as ->. cbn [fst snd]. done.
Qed.

Lemma error_status_stops_the_request_witness :
  status (fst (get_convert Scenario.not_found Scenario.url Scenario.empty_world)) = 500%Z /\
  count_calls is_convert_call
    (snd (get_convert Scenario.not_found Scenario.url Scenario.empty_world)) = 0.
Proof.
  destruct (error_status_stops_the_request Scenario.not_found Scenario.url
              Scenario.empty_world
              {| status_code := 404; reason := "Not Found"; resp_url := Scenario.url;
                 chunks := []; stream_error := None |}
              eq_refl eq_refl)
    as (_ & Hstatus & Hconvert & _).
  split; [exact Hstatus | exact Hconvert].
Defined.

(** No exception that leaves the handler's [try] block is a
    [CalledProcessError]: the libraries raise their own classes, and the
    converter and the uploader wrap whatever they meet. *)
Lemma try_body_raises (E : env) (url : string) s e s' :
  convert_try_body E url s = (Raise e, s') -> is_CalledProcessError e = false.
Proof.
  unfold convert_try_body, mkdtemp. py_simpl.
  destruct (mkdtemp_error E); py_simpl; [by intros [= <- _]|].
  destruct (fs (globe s) !! mkdtemp_path E); py_simpl;
    [unfold no_usable_name; by intros [= <- _]|].
  destruct (download_file E url _ _) as [[[]|e2] s2] eqn:Hrun2.
  2:{ destruct (behaves_run _ _ _ _ _ _ _ (download_file_behaves _ _ _) Hrun2)
        as [_ [le ->]].
      by intros [= <- _]. }
  destruct (convert_ply_to_glb E _ _ _) as [[[]|e3] s3] eqn:Hrun3.
  2:{ destruct (convert_ply_to_glb_outcome _ _ _ _ _ _ Hrun3) as [[m ->] _].
      by intros [= <- _]. }
  destruct (upload_to_gcs E GCS_BUCKET _ _ _) as [[[]|e4] s4] eqn:Hrun4.
  2:{ destruct (behaves_run _ _ _ _ _ _ _ (upload_to_gcs_behaves _ _ _ _) Hrun4)
        as [_ [m ->]].
      by intros [= <- _]. }
  done.
Qed.

(** C10.  The handler's clause for [subprocess.CalledProcessError] is
    never taken: no exception leaving its [try] block is of that class.
    A failure of [convert_ply_to_glb] reaches the handler as a plain
    [Exception] whose text starts with [PDAL conversion failed: ], takes
    the generic clause, and gives a 500 whose [detail] starts with
    [An error occurred: ] and not with [Conversion failed: ]. *)
Theorem called_process_error_clause_unreachable
    (E : env) (url : string) (w w1 w2 w3 : world) (e : exn) :
  run (@None string) (mkdtemp E) w = (Ret (mkdtemp_path E), w1) ->
  run tt (download_file E url (input_path E)) w1 = (Ret tt, w2) ->
  run None (convert_ply_to_glb E (input_path E) (output_path E)) w2 = (Raise e, w3) ->
  (forall s e' s', convert_try_body E url s = (Raise e', s') ->
                   is_CalledProcessError e' = false) /\
  exists m,
    e = PlainException ("PDAL conversion failed: " +:+ m) /\
    fst (get_convert E url w)
    = {| status := 500;
         body := detail_body ("An error occurred: " +:+ "PDAL conversion failed: " +:+ m) |} /\
    String.prefix "Conversion failed: "
      ("An error occurred: " +:+ "PDAL conversion failed: " +:+ m) = false.
Proof.
  intros Hmk Hdl Hconv. split; [intros s e' s'; apply try_body_raises|].
  assert (is_plain_with "PDAL conversion failed: " e) as [m ->].
  { revert Hconv. unfold run. cbn [fst snd].
    destruct (convert_ply_to_glb E _ _ (Frame None w2)) as [r s'] eqn:Hrun.
    intros [= -> _].
    by destruct (convert_ply_to_glb_outcome _ _ _ _ _ _ Hrun) as [H _]. }
  exists m. split; [done|].
  rewrite get_convert_staged. unfold staged. rewrite Hmk, Hdl, Hconv.
  split; reflexivity.
Qed.

Lemma called_process_error_clause_unreachable_witness :
  exists m,
    fst (get_convert Scenario.tool_fails Scenario.url Scenario.empty_world)
    = {| status := 500;
         body := detail_body ("An error occurred: " +:+ "PDAL conversion failed: " +:+ m) |}.
Proof.
  pose (w1 := snd (run (@None string) (mkdtemp Scenario.tool_fails) Scenario.empty_world)).
  pose (w2 := snd (run tt (download_file Scenario.tool_fails Scenario.url
                             (input_path Scenario.tool_fails)) w1)).
  pose (r3 := run None (convert_ply_to_glb Scenario.tool_fails
                          (input_path Scenario.tool_fails)
                          (output_path Scenario.tool_fails)) w2).
  destruct (called_process_error_clause_unreachable Scenario.tool_fails Scenario.url
              Scenario.empty_world w1 w2 (snd r3)
              (PlainException
                 "PDAL conversion failed: Command '['pdal', 'pipeline', '/tmp/tmpw8_1zr4c.json']' returned non-zero exit status 1."))
    as (_ & m & _ & H & _).
  - vm_compute. reflexivity.
  - vm_compute. reflexivity.
  - vm_compute. reflexivity.
  - exists m. exact H.
Defined.

(** C2: the code does not do this.  The tool exits with status 1 and a
    diagnostic on its standard error; the [detail] of the 500 names the
    command and the exit status, and the diagnostic is nowhere in it. *)
Theorem stderr_missing_from_detail :
  (forall argv m,
     run_process Scenario.tool_fails argv m = Exited 1 "" Scenario.pdal_stderr []) /\
  fst (get_convert Scenario.tool_fails Scenario.url Scenario.empty_world)
  = {| status := 500;
       body := detail_body
         "An error occurred: PDAL conversion failed: Command '['pdal', 'pipeline', '/tmp/tmpw8_1zr4c.json']' returned non-zero exit status 1." |} /\
  ~ Str.contains
      "An error occurred: PDAL conversion failed: Command '['pdal', 'pipeline', '/tmp/tmpw8_1zr4c.json']' returned non-zero exit status 1."
      Scenario.pdal_stderr.
Proof.
  split; [reflexivity|]. split; [vm_compute; reflexivity|].
  apply containsb_false. vm_compute. reflexivity.
Qed.

(** C5: the code does not do this.  Two requests served one after the
    other within the same second, each in a workspace of its own, get the
    same destination key: the second upload replaces the first, and both
    answers carry the same URL. *)
Theorem same_second_same_key :
  mkdtemp_path Scenario.happy <> mkdtemp_path Scenario.happy_again /\
  destination_key Scenario.happy = "conversions/converted_20240309_120005.glb" /\
  destination_key Scenario.happy_again = "conversions/converted_20240309_120005.glb" /\
  status (fst (get_convert Scenario.happy Scenario.url Scenario.empty_world)) = 200%Z /\
  store (snd (get_convert Scenario.happy Scenario.url Scenario.empty_world))
    !! (GCS_BUCKET, "conversions/converted_20240309_120005.glb")
  = Some (Blob (Bytes "glTF:plydata") true) /\
  status (fst (get_convert Scenario.happy_again Scenario.other_url
                 (snd (get_convert Scenario.happy Scenario.url Scenario.empty_world))))
  = 200%Z /\
  body (fst (get_convert Scenario.happy_again Scenario.other_url
               (snd (get_convert Scenario.happy Scenario.url Scenario.empty_world))))
  = body (fst (get_convert Scenario.happy Scenario.url Scenario.empty_world)) /\
  store (snd (get_convert Scenario.happy_again Scenario.other_url
                (snd (get_convert Scenario.happy Scenario.url Scenario.empty_world))))
    !! (GCS_BUCKET, "conversions/converted_20240309_120005.glb")
  = Some (Blob (Bytes "glTF:other") true) /\
  size (store (snd (get_convert Scenario.happy_again Scenario.other_url
                      (snd (get_convert Scenario.happy Scenario.url
                              Scenario.empty_world))))) = 1.
Proof. repeat split; try (vm_compute; reflexivity). vm_compute. discriminate. Qed.

(** * Further properties *)

(** ** download_file *)

Lemma append_nil_r (s : string) : s +:+ "" = s.
Proof. induction s as [|c s IH]; [done|]. by rewrite append_cons, IH. Qed.

Lemma world_eta (w : world) : {| fs := fs w; store := store w; calls := calls w |} = w.
Proof. by destruct w. Qed.

(** The loop over the chunks appends them, in order, to what the file
    holds. *)
Lemma write_chunks_run {L} (p : string) (cs : list string) (s : frame L) (old : string) :
  fs (globe s) !! p = Some (File (Bytes old)) ->
  write_chunks p cs s
  = (Ret tt,
     Frame (locals s)
       (with_fs (insert p (File (Bytes (old +:+ fold_right String.append "" cs)))) (globe s))).
Proof.
  revert s old. induction cs as [|c cs IH]; intros [l w] old Hp; cbn [write_chunks].
  - py_simpl. cbn [fold_right]. rewrite append_nil_r. 
    unfold with_fs. rewrite insert_id by exact Hp. by rewrite world_eta.
  - py_simpl_in Hp. unfold Os.append_file, with_fs. py_simpl. rewrite Hp.
    unfold Os.write_one. cbn [fst snd]. rewrite Hp.
    rewrite (IH _ (old +:+ c)); [|cbn [globe fs]; apply lookup_insert_eq].
    cbn [locals globe fold_right]. unfold with_fs. cbn [fs store calls].
    by rewrite insert_insert_eq, append_assoc.
Qed.

Lemma raise_for_status_passes {L} (r : response) :
  error_status (status_code r) = false -> raise_for_status (L:=L) r = ret tt.
Proof.
  unfold raise_for_status, error_status.
  destruct (400 <=? status_code r)%Z eqn:H4, (status_code r <? 500)%Z eqn:H5,
    (500 <=? status_code r)%Z eqn:H6, (status_code r <? 600)%Z eqn:H7;
    cbn; try done; lia.
Qed.

(** Past [raise_for_status] and [open], [download_file] stores the body
    and ends as the stream ended. *)
Lemma download_file_stores (E : env) (url p : string) (w : world) (r : response) :
  http_get E url = HttpReturns r ->
  error_status (status_code r) = false ->
  open_error E p = None ->
  fs w !! p <> Some Dir ->
  run tt (download_file E url p) w
  = (match stream_error r with
     | Some e => Raise (LibraryError e)
     | None => Ret tt
     end,
     downloaded url p r w).
Proof.
  intros Hget Hst Hopen Hdir.
  unfold run, download_file, requests_get, open_wb, stream_to, Os.create_file.
  rewrite Hget. py_simpl. rewrite (raise_for_status_passes _ Hst). py_simpl.
  rewrite Hopen. py_simpl.
  assert (forall k1 k2 : frame unit -> outcome unit * frame unit,
            match fs w !! p with Some Dir => k1 | _ => k2 end = k2) as ->.
  { intros. by destruct (fs w !! p) as [[|]|]. }
  py_simpl.
  erewrite write_chunks_run by (cbn [globe fs with_fs]; apply lookup_insert_eq).
  rewrite append_nil. cbn [locals globe].
  unfold downloaded, body_text, with_fs, with_call. cbn [fs store calls].
  rewrite insert_insert_eq.
  by destruct (stream_error r).
Qed.

(** However [download_file] ends, the world differs from the one it
    started in by the logged call and, at most, by the file at [p]. *)
Lemma download_file_cases (E : env) (url p : string) (w : world) :
  (exists le, run tt (download_file E url p) w
              = (Raise (LibraryError le), with_call (CallDownload url p) w)) \/
  (exists r, fs w !! p <> Some Dir /\
     run tt (download_file E url p) w
     = (match stream_error r with
        | Some e => Raise (LibraryError e)
        | None => Ret tt
        end,
        downloaded url p r w)).
Proof.
  destruct (http_get E url) as [e|r] eqn:Hget.
  { left. exists e. unfold run, download_file, requests_get. py_simpl.
    rewrite Hget. py_simpl. done. }
  destruct (error_status (status_code r)) eqn:Hst.
  { left. eexists. by apply download_file_error_status. }
  destruct (open_error E p) as [e|] eqn:Hopen.
  { left. exists e.
    unfold run, download_file, requests_get, open_wb. py_simpl.
    rewrite Hget. py_simpl. rewrite (raise_for_status_passes _ Hst). py_simpl.
    rewrite Hopen. py_simpl. done. }
  destruct (fs w !! p) as [[c|]|] eqn:Hp.
  2:{ left. eexists.
      unfold run, download_file, requests_get, open_wb, Os.create_file. py_simpl.
      rewrite Hget. py_simpl. rewrite (raise_for_status_passes _ Hst). py_simpl.
      rewrite Hopen. py_simpl. rewrite Hp. py_simpl.
      unfold Os.IsADirectoryError, Os.os_error. done. }
  all: right; exists r; rewrite <- Hp; split; [by rewrite Hp|];
    apply download_file_stores; try done; by rewrite Hp.
Qed.

(** X1.  When the server answers with a status that is no error, the
    output file can be opened and the body arrives whole, [download_file]
    returns and the file at [output_path] holds the chunks of the body in
    order, in place of what a regular file there held; but for the logged
    call nothing else changes. *)
Theorem download_stores_body (E : env) (url p : string) (w : world) (r : response) :
  http_get E url = HttpReturns r ->
  error_status (status_code r) = false ->
  open_error E p = None ->
  fs w !! p <> Some Dir ->
  stream_error r = None ->
  run tt (download_file E url p) w
  = (Ret tt,
     with_call (CallDownload url p)
       (with_fs (insert p (File (Bytes (body_text r)))) w)).
Proof.
  intros Hget Hst Hopen Hdir Hstream.
  rewrite (download_file_stores E url p w r) by done. by rewrite Hstream.
Qed.

Lemma download_stores_body_witness :
  run tt (download_file Scenario.happy Scenario.url "/data/in.ply") Scenario.empty_world
  = (Ret tt,
     with_call (CallDownload Scenario.url "/data/in.ply")
       (with_fs (insert "/data/in.ply" (File (Bytes "plydata"))) Scenario.empty_world)).
Proof.
  apply (download_stores_body Scenario.happy Scenario.url "/data/in.ply"
           Scenario.empty_world
           {| status_code := 200; reason := "OK"; resp_url := Scenario.url;
              chunks := ["ply"; "data"]; stream_error := None |});
    [reflexivity | reflexivity | reflexivity | vm_compute; discriminate | reflexivity].
Defined.

(** X2.  When the stream breaks off, its exception leaves
    [download_file] as it is, and the file at [output_path] stays, holding
    the chunks that had arrived: [download_file] removes nothing. *)
Theorem download_interrupted_keeps_part
    (E : env) (url p : string) (w : world) (r : response) (e : lib_error) :
  http_get E url = HttpReturns r ->
  error_status (status_code r) = false ->
  open_error E p = None ->
  fs w !! p <> Some Dir ->
  stream_error r = Some e ->
  run tt (download_file E url p) w
  = (Raise (LibraryError e),
     with_call (CallDownload url p)
       (with_fs (insert p (File (Bytes (body_text r)))) w)).
Proof.
  intros Hget Hst Hopen Hdir Hstream.
  rewrite (download_file_stores E url p w r) by done. by rewrite Hstream.
Qed.

Lemma download_interrupted_keeps_part_witness :
  run tt (download_file Faults.interrupted Scenario.url "/data/in.ply") Scenario.empty_world
  = (Raise (LibraryError (LibError "ChunkedEncodingError"
                            "Connection broken: IncompleteRead")),
     with_call (CallDownload Scenario.url "/data/in.ply")
       (with_fs (insert "/data/in.ply" (File (Bytes "ply"))) Scenario.empty_world)).
Proof.
  apply (download_interrupted_keeps_part Faults.interrupted Scenario.url "/data/in.ply"
           Scenario.empty_world
           {| status_code := 200; reason := "OK"; resp_url := Scenario.url;
              chunks := ["ply"];
              stream_error := Some (LibError "ChunkedEncodingError"
                                      "Connection broken: IncompleteRead") |});
    [reflexivity | reflexivity | reflexivity | vm_compute; discriminate | reflexivity].
Defined.

(** X3.  However [download_file] ends, every path other than
    [output_path] holds what it held, the object store is as it was, one
    call is logged, and what it raises is an exception of a library. *)
Theorem download_touches_only_its_file (E : env) (url p : string) (w : world) :
  (forall q, q <> p ->
     fs (snd (run tt (download_file E url p) w)) !! q = fs w !! q) /\
  store (snd (run tt (download_file E url p) w)) = store w /\
  calls (snd (run tt (download_file E url p) w)) = CallDownload url p :: calls w /\
  (fst (run tt (download_file E url p) w) = Ret tt \/
   exists le, fst (run tt (download_file E url p) w) = Raise (LibraryError le)).
Proof.
  destruct (download_file_cases E url p w) as [[le ->] | (r & Hdir & ->)]; cbn [fst snd].
  - repeat split; eauto.
  - unfold downloaded. cbn [fs store calls with_fs with_call].
    repeat split.
    + intros q Hq. by rewrite lookup_insert_ne.
    + destruct (stream_error r); eauto.
Qed.

(** ** upload_to_gcs *)

(** The ways [upload_to_gcs] can end, in the order its statements run. *)
Lemma upload_to_gcs_cases (E : env) (bucket source key : string) (w : world) :
  run tt (upload_to_gcs E bucket source key) w
  = match gcs_client_error E with
    | Some e =>
        (Raise (PlainException ("GCS upload failed: " +:+ err_text e)),
         with_call (CallUpload bucket source key) w)
    | None =>
        match fs w !! source with
        | None =>
            (Raise (PlainException
                      ("GCS upload failed: " +:+ exn_str E (Os.FileNotFoundError source))),
             with_call (CallUpload bucket source key) w)
        | Some Dir =>
            (Raise (PlainException
                      ("GCS upload failed: " +:+ exn_str E (Os.IsADirectoryError source))),
             with_call (CallUpload bucket source key) w)
        | Some (File c) =>
            match gcs_upload_error E with
            | Some e =>
                (Raise (PlainException ("GCS upload failed: " +:+ err_text e)),
                 with_call (CallUpload bucket source key) w)
            | None =>
                match gcs_acl_error E with
                | Some e =>
                    (Raise (PlainException ("GCS upload failed: " +:+ err_text e)),
                     with_store (insert (bucket, key) (Blob c false))
                       (with_call (CallUpload bucket source key) w))
                | None =>
                    (Ret tt,
                     with_store (insert (bucket, key) (Blob c true))
                       (with_call (CallUpload bucket source key) w))
                end
            end
        end
    end.
Proof.
  unfold run, upload_to_gcs, storage_Client, upload_from_filename, make_public.
  py_simpl.
  destruct (gcs_client_error E); py_simpl; [done|].
  destruct (fs w !! source) as [[c|]|]; py_simpl; [|done|done].
  destruct (gcs_upload_error E); py_simpl; [done|].
  destruct (gcs_acl_error E); py_simpl; [done|].
  unfold with_store. cbn [fs store calls with_call].
  by rewrite alter_insert_eq.
Qed.

(** X4.  When [upload_to_gcs] returns, the source was a regular file
    and the bucket holds, under the destination name, an object with the
    content of that file, made public; the local files are untouched. *)
Theorem upload_returns_with_object_public
    (E : env) (bucket source key : string) (w w' : world) :
  run tt (upload_to_gcs E bucket source key) w = (Ret tt, w') ->
  exists c,
    fs w !! source = Some (File c) /\
    store w' = <[(bucket, key) := Blob c true]> (store w) /\
    fs w' = fs w.
Proof.
  rewrite upload_to_gcs_cases.
  destruct (gcs_client_error E); [done|].
  destruct (fs w !! source) as [[c|]|]; [|done|done].
  destruct (gcs_upload_error E); [done|].
  destruct (gcs_acl_error E); [done|].
  intros [= <-]. by exists c.
Qed.

Lemma upload_returns_with_object_public_witness :
  exists c,
    fs Faults.with_mesh !! "/data/out.glb" = Some (File c) /\
    store (snd (run tt (upload_to_gcs Scenario.happy GCS_BUCKET "/data/out.glb"
                          "conversions/a.glb") Faults.with_mesh))
    = <[(GCS_BUCKET, "conversions/a.glb") := Blob c true]> (store Faults.with_mesh) /\
    fs (snd (run tt (upload_to_gcs Scenario.happy GCS_BUCKET "/data/out.glb"
                       "conversions/a.glb") Faults.with_mesh))
    = fs Faults.with_mesh.
Proof.
  apply (upload_returns_with_object_public Scenario.happy GCS_BUCKET "/data/out.glb"
           "conversions/a.glb" Faults.with_mesh).
  vm_compute. reflexivity.
Defined.

(** X5.  When the transfer succeeds and [make_public] fails,
    [upload_to_gcs] raises [GCS upload failed: ...] and the object stays
    in the bucket, not public: the upload is not undone. *)
Theorem upload_leaves_private_object_when_acl_fails
    (E : env) (bucket source key : string) (w : world) (c : content) (e : lib_error) :
  gcs_client_error E = None ->
  fs w !! source = Some (File c) ->
  gcs_upload_error E = None ->
  gcs_acl_error E = Some e ->
  fst (run tt (upload_to_gcs E bucket source key) w)
  = Raise (PlainException ("GCS upload failed: " +:+ err_text e)) /\
  store (snd (run tt (upload_to_gcs E bucket source key) w))
  = <[(bucket, key) := Blob c false]> (store w).
Proof.
  intros Hclient Hsrc Hup Hacl.
  rewrite upload_to_gcs_cases, Hclient, Hsrc, Hup, Hacl. done.
Qed.

Lemma upload_leaves_private_object_witness :
  fst (run tt (upload_to_gcs Faults.acl_fails GCS_BUCKET "/data/out.glb"
                 "conversions/a.glb") Faults.with_mesh)
  = Raise (PlainException ("GCS upload failed: " +:+ "403 PUT: insufficient permission")) /\
  store (snd (run tt (upload_to_gcs Faults.acl_fails GCS_BUCKET "/data/out.glb"
                        "conversions/a.glb") Faults.with_mesh))
  = <[(GCS_BUCKET, "conversions/a.glb") := Blob (Bytes "glTF") false]>
      (store Faults.with_mesh).
Proof.
  apply (upload_leaves_private_object_when_acl_fails Faults.acl_fails GCS_BUCKET
           "/data/out.glb" "conversions/a.glb" Faults.with_mesh (Bytes "glTF")
           (LibError "Forbidden" "403 PUT: insufficient permission"));
    reflexivity.
Defined.

(** X6.  However [upload_to_gcs] ends, the local files are untouched,
    one call is logged, every other object of the store is as it was, and
    nothing is stored unless the source is a regular file; whatever goes
    wrong leaves as a plain [Exception] whose text starts with
    [GCS upload failed: ]. *)
Theorem upload_touches_only_its_key (E : env) (bucket source key : string) (w : world) :
  fs (snd (run tt (upload_to_gcs E bucket source key) w)) = fs w /\
  calls (snd (run tt (upload_to_gcs E bucket source key) w))
  = CallUpload bucket source key :: calls w /\
  (forall k, k <> (bucket, key) ->
     store (snd (run tt (upload_to_gcs E bucket source key) w)) !! k = store w !! k) /\
  (~ is_file (fs w) source ->
   store (snd (run tt (upload_to_gcs E bucket source key) w)) = store w) /\
  (fst (run tt (upload_to_gcs E bucket source key) w) = Ret tt \/
   exists m, fst (run tt (upload_to_gcs E bucket source key) w)
             = Raise (PlainException ("GCS upload failed: " +:+ m))).
Proof.
  rewrite upload_to_gcs_cases.
  destruct (gcs_client_error E); [repeat split; eauto|].
  destruct (fs w !! source) as [[c|]|] eqn:Hsrc; [|repeat split; eauto..].
  destruct (gcs_upload_error E); [repeat split; eauto|].
  destruct (gcs_acl_error E); cbn [fst snd fs store calls with_store with_call].
  - repeat split; eauto.
    + intros k Hk. by rewrite lookup_insert_ne.
    + intros []. by exists c.
  - repeat split; eauto.
    + intros k Hk. by rewrite lookup_insert_ne.
    + intros []. by exists c.
Qed.

(** ** convert_ply_to_glb *)

Lemma convert_keeps_store (E : env) (i o : string) (w : world) r s' :
  convert_ply_to_glb E i o (Frame None w) = (r, s') -> store (globe s') = store w.
Proof.
  intros H.
  unfold convert_ply_to_glb, write_pipeline, NamedTemporaryFile, json_dump,
    file_close, subprocess_run, Os.path_exists, Os.unlink, no_usable_name,
    unbound_pipeline_file in H.
  py_simpl_in H.
  destruct (ntf_error E) as [e1|]; py_simpl_in H; [by injection H as <- <-|].
  destruct (fs w !! ntf_path E ".json") as [n|]; py_simpl_in H; [by injection H as <- <-|].
  destruct (dump_error E) as [e2|]; py_simpl_in H.
  { destruct (close_error E); py_simpl_in H; by injection H as <- <-. }
  destruct (close_error E) as [e3|]; fs_simpl_in H; [by injection H as <- <-|].
  destruct (run_process E _ _) as [e4|rc out err writes]; fs_simpl_in H;
    [by injection H as <- <-|].
  destruct (apply_writes_file writes
              (<[ntf_path E ".json" := File (JsonText (pipeline_definition i o))]> (fs w))
              (ntf_path E ".json")) as [c Hc].
  { eexists. apply lookup_insert_eq. }
  destruct (rc =? 0)%Z; fs_simpl_in H;
    rewrite Hc in H; fs_simpl_in H; rewrite Hc in H; fs_simpl_in H;
    by injection H as <- <-.
Qed.

(** X7.  When [json.dump] raises after the temporary file was created,
    [pipeline_file] is never bound, so the [finally] clause removes
    nothing: [convert_ply_to_glb] raises and the descriptor file stays on
    disk, next to everything that was there. *)
Theorem descriptor_left_behind_when_dump_fails
    (E : env) (i o : string) (w : world) (e : lib_error) :
  ntf_error E = None ->
  fs w !! ntf_path E ".json" = None ->
  dump_error E = Some e ->
  (exists m, fst (run None (convert_ply_to_glb E i o) w)
             = Raise (PlainException ("PDAL conversion failed: " +:+ m))) /\
  is_file (fs (snd (run None (convert_ply_to_glb E i o) w))) (ntf_path E ".json") /\
  forall q, q <> ntf_path E ".json" ->
    fs (snd (run None (convert_ply_to_glb E i o) w)) !! q = fs w !! q.
Proof.
  intros Hntf Hfresh Hdump.
  unfold run, convert_ply_to_glb, write_pipeline, NamedTemporaryFile, json_dump,
    file_close.
  py_simpl. rewrite Hntf. py_simpl. rewrite Hfresh. py_simpl. rewrite Hdump. py_simpl.
  destruct (close_error E); py_simpl; (split; [eauto|]); split.
  all: try (eexists; apply lookup_insert_eq).
  all: intros q Hq; by rewrite lookup_insert_ne.
Qed.

Lemma descriptor_left_behind_witness :
  is_file
    (fs (snd (run None (convert_ply_to_glb Faults.dump_fails "/data/in.ply" "/data/out.glb")
                Scenario.empty_world)))
    (ntf_path Faults.dump_fails ".json").
Proof.
  apply (descriptor_left_behind_when_dump_fails Faults.dump_fails "/data/in.ply"
           "/data/out.glb" Scenario.empty_world
           (LibError "OSError" "[Errno 28] No space left on device"));
    reflexivity.
Defined.

(** X8.  When the tool exits with a positive status, the exception of
    [convert_ply_to_glb] reads [PDAL conversion failed: Command '[...]'
    returned non-zero exit status N.]: the command line and the status,
    and neither of the captured streams.  The files the tool wrote stay,
    the descriptor is removed. *)
Theorem failed_tool_message_has_command_and_status
    (E : env) (i o : string) (w : world) (rc : Z) (out err : string)
    (writes : list (string * content)) :
  ntf_error E = None ->
  fs w !! ntf_path E ".json" = None ->
  dump_error E = None ->
  close_error E = None ->
  run_process E ["pdal"; "pipeline"; ntf_path E ".json"]
    (<[ntf_path E ".json" := File (JsonText (pipeline_definition i o))]> (fs w))
  = Exited rc out err writes ->
  (0 < rc)%Z ->
  fst (run None (convert_ply_to_glb E i o) w)
  = Raise (PlainException
             ("PDAL conversion failed: Command '"
              +:+ Str.of_list ["pdal"; "pipeline"; ntf_path E ".json"]
              +:+ "' returned non-zero exit status " +:+ Str.of_Z rc +:+ ".")) /\
  fs (snd (run None (convert_ply_to_glb E i o) w))
  = delete (ntf_path E ".json")
      (Os.apply_writes writes
         (<[ntf_path E ".json" := File (JsonText (pipeline_definition i o))]> (fs w))).
Proof.
  intros Hntf Hfresh Hdump Hclose Hrun Hrc.
  destruct (apply_writes_file writes
              (<[ntf_path E ".json" := File (JsonText (pipeline_definition i o))]> (fs w))
              (ntf_path E ".json")) as [c Hc].
  { eexists. apply lookup_insert_eq. }
  unfold run, convert_ply_to_glb, write_pipeline, NamedTemporaryFile, json_dump,
    file_close, subprocess_run, Os.path_exists, Os.unlink.
  py_simpl. rewrite Hntf. py_simpl. rewrite Hfresh. py_simpl. rewrite Hdump. py_simpl.
  rewrite Hclose. py_simpl. rewrite !write_one_fresh, Hrun. py_simpl.
  assert ((rc =? 0)%Z = false) as -> by lia. py_simpl.
  unfold exn_str. assert ((rc <? 0)%Z = false) as -> by lia.
  repeat (progress (rewrite ?write_one_fresh, ?Hc, ?exists_Some; py_simpl)).
  done.
Qed.

Lemma failed_tool_message_witness :
  fst (run None (convert_ply_to_glb Scenario.tool_fails "/data/in.ply" "/data/out.glb")
         Scenario.empty_world)
  = Raise (PlainException
             ("PDAL conversion failed: Command '"
              +:+ Str.of_list ["pdal"; "pipeline"; ntf_path Scenario.tool_fails ".json"]
              +:+ "' returned non-zero exit status " +:+ Str.of_Z 1 +:+ ".")).
Proof.
  apply (failed_tool_message_has_command_and_status Scenario.tool_fails "/data/in.ply"
           "/data/out.glb" Scenario.empty_world 1 "" Scenario.pdal_stderr []);
    [reflexivity | reflexivity | reflexivity | reflexivity | reflexivity | lia].
Defined.

(** ** The /convert handler *)

Lemma download_stage_facts (E : env) (url p : string) (w : world) r w' :
  run tt (download_file E url p) w = (r, w') ->
  calls w' = CallDownload url p :: calls w /\ store w' = store w.
Proof.
  destruct (download_file_cases E url p w) as [[le ->] | (r0 & _ & ->)];
    intros [= <- <-]; done.
Qed.

Lemma convert_stage_facts (E : env) (i o : string) (w : world) r w' :
  run None (convert_ply_to_glb E i o) w = (r, w') ->
  calls w' = CallConvert i o :: calls w /\ store w' = store w.
Proof.
  unfold run. cbn [fst snd].
  destruct (convert_ply_to_glb E i o (Frame None w)) as [r0 s'] eqn:Hrun.
  intros [= <- <-]. split.
  - by destruct (behaves_run _ _ _ _ _ _ _ (convert_ply_to_glb_steady _ _ _) Hrun)
      as [[_ ->] _].
  - by apply convert_keeps_store in Hrun.
Qed.

Lemma upload_stage_facts (E : env) (bucket source key : string) (w : world) r w' :
  run tt (upload_to_gcs E bucket source key) w = (r, w') ->
  calls w' = CallUpload bucket source key :: calls w /\
  (r = Ret tt ->
   exists c, fs w !! source = Some (File c) /\
             store w' = <[(bucket, key) := Blob c true]> (store w)).
Proof.
  rewrite upload_to_gcs_cases.
  destruct (gcs_client_error E); [by intros [= <- <-]|].
  destruct (fs w !! source) as [[c|]|]; [|by intros [= <- <-]..].
  destruct (gcs_upload_error E); [by intros [= <- <-]|].
  destruct (gcs_acl_error E); intros [= <- <-]; [done|].
  split; [done|]. intros _. by exists c.
Qed.

(** X9.  A 200 answer of /convert means that the three stages before
    the upload returned, and that the store differs from the one before
    the request by one public object, under the generated key, holding
    what the converter left at the output path. *)
Theorem success_publishes_the_converted_file (E : env) (url : string) (w : world) :
  status (fst (get_convert E url w)) = 200%Z ->
  exists w1 w2 w3 c,
    run (@None string) (mkdtemp E) w = (Ret (mkdtemp_path E), w1) /\
    run tt (download_file E url (input_path E)) w1 = (Ret tt, w2) /\
    run None (convert_ply_to_glb E (input_path E) (output_path E)) w2 = (Ret tt, w3) /\
    fs w3 !! output_path E = Some (File c) /\
    store (snd (get_convert E url w))
    = <[(GCS_BUCKET, destination_key E) := Blob c true]> (store w).
Proof.
  rewrite get_convert_staged. unfold staged. cbn [fst snd].
  destruct (run (@None string) (mkdtemp E) w) as [[d|e1] w1] eqn:H1; [|done].
  destruct (mkdtemp_returns _ _ _ _ H1) as [-> Hw1].
  destruct (run tt (download_file E url (input_path E)) w1) as [[[]|e2] w2] eqn:H2; [|done].
  destruct (run None (convert_ply_to_glb E (input_path E) (output_path E)) w2)
    as [[[]|e3] w3] eqn:H3; [|done].
  destruct (run tt (upload_to_gcs E GCS_BUCKET (output_path E) (destination_key E)) w3)
    as [[[]|e4] w4] eqn:H4; [|done].
  intros _.
  destruct (download_stage_facts _ _ _ _ _ _ H2) as [_ Hs2].
  destruct (convert_stage_facts _ _ _ _ _ _ H3) as [_ Hs3].
  destruct (upload_stage_facts _ _ _ _ _ _ _ H4) as [_ Hs4].
  destruct (Hs4 eq_refl) as (c & Hc & Hstore).
  exists w1, w2, w3, c. repeat split; try done.
  cbn [snd]. unfold cleaned. cbn [store with_fs].
  rewrite Hstore, Hs3, Hs2, Hw1. done.
Qed.

Lemma success_publishes_witness :
  exists w1 w2 w3 c,
    run (@None string) (mkdtemp Scenario.happy) Scenario.empty_world
    = (Ret (mkdtemp_path Scenario.happy), w1) /\
    run tt (download_file Scenario.happy Scenario.url (input_path Scenario.happy)) w1
    = (Ret tt, w2) /\
    run None (convert_ply_to_glb Scenario.happy (input_path Scenario.happy)
                (output_path Scenario.happy)) w2
    = (Ret tt, w3) /\
    fs w3 !! output_path Scenario.happy = Some (File c) /\
    store (snd (get_convert Scenario.happy Scenario.url Scenario.empty_world))
    = <[(GCS_BUCKET, destination_key Scenario.happy) := Blob c true]>
        (store Scenario.empty_world).
Proof.
  apply (success_publishes_the_converted_file Scenario.happy Scenario.url
           Scenario.empty_world).
  vm_compute. reflexivity.
Defined.

(** X10.  A request in which [upload_to_gcs] was not called leaves the
    object store as it was. *)
Theorem store_untouched_without_upload (E : env) (url : string) (w : world) :
  count_calls is_upload_call (snd (get_convert E url w)) = count_calls is_upload_call w ->
  store (snd (get_convert E url w)) = store w.
Proof.
  rewrite get_convert_staged. unfold staged. cbn [fst snd].
  destruct (run (@None string) (mkdtemp E) w) as [[d|e1] w1] eqn:H1.
  2:{ by apply mkdtemp_raises in H1 as ->. }
  destruct (mkdtemp_returns _ _ _ _ H1) as [-> Hw1].
  destruct (run tt (download_file E url (input_path E)) w1) as [[[]|e2] w2] eqn:H2.
  2:{ destruct (download_stage_facts _ _ _ _ _ _ H2) as [_ Hs2].
      intros _. cbn [snd]. unfold cleaned. cbn [store with_fs]. by rewrite Hs2, Hw1. }
  destruct (run None (convert_ply_to_glb E (input_path E) (output_path E)) w2)
    as [[[]|e3] w3] eqn:H3.
  2:{ destruct (download_stage_facts _ _ _ _ _ _ H2) as [_ Hs2].
      destruct (convert_stage_facts _ _ _ _ _ _ H3) as [_ Hs3].
      intros _. cbn [snd]. unfold cleaned. cbn [store with_fs]. by rewrite Hs3, Hs2, Hw1. }
  destruct (download_stage_facts _ _ _ _ _ _ H2) as [Hc2 _].
  destruct (convert_stage_facts _ _ _ _ _ _ H3) as [Hc3 _].
  assert (count_calls is_upload_call w3 = count_calls is_upload_call w) as Hcount.
  { unfold count_calls. rewrite Hc3, Hc2, Hw1. done. }
  destruct (run tt (upload_to_gcs E GCS_BUCKET (output_path E) (destination_key E)) w3)
    as [r4 w4] eqn:H4.
  destruct (upload_stage_facts _ _ _ _ _ _ _ H4) as [Hc4 _].
  assert (count_calls is_upload_call w4 = S (count_calls is_upload_call w)) as Hw4.
  { unfold count_calls in *. rewrite Hc4. cbn. by rewrite Hcount. }
  destruct r4 as [[]|e4]; cbn [snd]; unfold cleaned, count_calls in *;
    cbn [calls with_fs]; lia.
Qed.

Lemma store_untouched_witness :
  store (snd (get_convert Scenario.tool_fails Scenario.url Scenario.empty_world))
  = store Scenario.empty_world.
Proof.
  apply (store_untouched_without_upload Scenario.tool_fails Scenario.url
           Scenario.empty_world).
  vm_compute. reflexivity.
Defined.

(** ** The destination key *)

Lemma below_forallb (f : nat -> bool) (n : nat) :
  forallb f (seq 0 n) = true -> forall k, k < n -> f k = true.
Proof.
  intros H k Hk. apply (proj1 (forallb_forall f (seq 0 n)) H).
  apply in_seq. lia.
Qed.

Lemma pad2_width (n : nat) : n < 100 -> String.length (Str.pad2 n) = 2.
Proof.
  intros Hn. apply Nat.eqb_eq.
  revert n Hn. apply (below_forallb (fun n => String.length (Str.pad2 n) =? 2)).
  vm_compute. reflexivity.
Qed.

Lemma pad2_value (n : nat) : n < 100 -> decimal_value (Str.pad2 n) = Some n.
Proof.
  intros Hn.
  assert (match decimal_value (Str.pad2 n) with Some k => k =? n | None => false end = true)
    as H.
  { revert n Hn.
    apply (below_forallb
             (fun n => match decimal_value (Str.pad2 n) with
                       | Some k => k =? n
                       | None => false
                       end)).
    vm_compute. reflexivity. }
  destruct (decimal_value (Str.pad2 n)); [|done].
  by apply Nat.eqb_eq in H as ->.
Qed.

Lemma pad4_width (n : nat) : n < 10 * 1000 -> String.length (Str.pad4 n) = 4.
Proof.
  intros Hn. apply Nat.eqb_eq.
  revert n Hn. apply (below_forallb (fun n => String.length (Str.pad4 n) =? 4)).
  vm_compute. reflexivity.
Qed.

Lemma pad4_value (n : nat) : n < 10 * 1000 -> decimal_value (Str.pad4 n) = Some n.
Proof.
  intros Hn.
  assert (match decimal_value (Str.pad4 n) with Some k => k =? n | None => false end = true)
    as H.
  { revert n Hn.
    apply (below_forallb
             (fun n => match decimal_value (Str.pad4 n) with
                       | Some k => k =? n
                       | None => false
                       end)).
    vm_compute. reflexivity. }
  destruct (decimal_value (Str.pad4 n)); [|done].
  by apply Nat.eqb_eq in H as ->.
Qed.

Lemma length_append (a b : string) :
  String.length (a +:+ b) = String.length a + String.length b.
Proof. induction a as [|c a IH]; [done|]. rewrite append_cons. cbn. by rewrite IH. Qed.

(** Two texts that agree, cut at the same place. *)
Lemma append_cut (a a' b b' : string) :
  String.length a = String.length a' -> a +:+ b = a' +:+ b' -> a = a' /\ b = b'.
Proof.
  revert a'. induction a as [|c a IH]; intros [|c' a'] Hlen Heq; try discriminate.
  - by rewrite !append_nil in Heq.
  - rewrite !append_cons in Heq. injection Heq as -> Heq.
    cbn in Hlen. destruct (IH a') as [-> ->]; [lia | done | done].
Qed.

Lemma strftime_inj (d1 d2 : datetime) :
  valid_datetime d1 -> valid_datetime d2 -> strftime d1 = strftime d2 -> d1 = d2.
Proof.
  destruct d1 as [y1 mo1 da1 h1 mi1 s1], d2 as [y2 mo2 da2 h2 mi2 s2].
  unfold valid_datetime, strftime. cbn [year month day hour minute second].
  intros (Hy1 & Hmo1 & Hda1 & Hh1 & Hmi1 & Hs1) (Hy2 & Hmo2 & Hda2 & Hh2 & Hmi2 & Hs2) H.
  apply append_cut in H as [Hy H]; [|rewrite !pad4_width; lia].
  apply append_cut in H as [Hmo H]; [|rewrite !pad2_width; lia].
  apply append_cut in H as [Hda H]; [|rewrite !pad2_width; lia].
  apply append_cut in H as [_ H]; [|done].
  apply append_cut in H as [Hh H]; [|rewrite !pad2_width; lia].
  apply append_cut in H as [Hmi Hs]; [|rewrite !pad2_width; lia].
  apply (f_equal decimal_value) in Hy, Hmo, Hda, Hh, Hmi, Hs.
  rewrite !pad4_value in Hy by lia.
  rewrite !pad2_value in Hmo, Hda, Hh, Hmi, Hs by lia.
  congruence.
Qed.

(** X14.  Two requests get the same destination key exactly when their
    clocks read the same second. *)
Theorem same_key_only_in_the_same_second (E1 E2 : env) :
  valid_datetime (now E1) -> valid_datetime (now E2) ->
  (destination_key E1 = destination_key E2 <-> now E1 = now E2).
Proof.
  intros H1 H2. unfold destination_key. split; [|by intros ->].
  intros H.
  apply append_cut in H as [_ H]; [|done].
  apply append_cut in H as [_ H]; [|done].
  apply strftime_inj; [done | done |].
  assert (String.length (strftime (now E1)) = String.length (strftime (now E2))) as Hlen.
  { apply (f_equal String.length) in H. rewrite !length_append in H. cbn in H. lia. }
  by apply append_cut in H as [H _].
Qed.

Lemma same_key_witness :
  destination_key Scenario.happy = destination_key Scenario.happy_again
  <-> now Scenario.happy = now Scenario.happy_again.
Proof.
  apply (same_key_only_in_the_same_second Scenario.happy Scenario.happy_again);
    unfold valid_datetime; cbn; lia.
Defined.

(** ** The /convert handler, continued *)



Lemma every_answer_shape (E : env) (url : string) (w : world) :
  fst (get_convert E url w)
  = {| status := 200;
       body := PyDict [("glb_url", PyStr (get_public_url GCS_BUCKET (destination_key E)));
                       ("message", PyStr "Conversion successful")] |} \/
  exists m,
    fst (get_convert E url w)
    = {| status := 500; body := detail_body ("An error occurred: " +:+ m) |}.
Proof.
  rewrite get_convert_staged. cbn [fst].
  destruct (staged_outcome E url w) as [-> | [e ->]].
  - by left.
  - right. by exists (exn_str E e).
Qed.

(** X12.  Every answer of /convert is either 200 with the URL and the
    message [Conversion successful], or 500 with a [detail] that starts
    with [An error occurred: ]. *)
Theorem every_answer_is_200_or_500 (E : env) (url : string) (w : world) :
  fst (get_convert E url w)
  = {| status := 200;
       body := PyDict [("glb_url", PyStr (get_public_url GCS_BUCKET (destination_key E)));
                       ("message", PyStr "Conversion successful")] |} \/
  exists m,
    fst (get_convert E url w)
    = {| status := 500; body := detail_body ("An error occurred: " +:+ m) |}.
Proof. apply every_answer_shape. Qed.

(** X13.  When [tempfile.mkdtemp] raises, /convert answers 500 with
    the text of that exception and leaves the world as it found it: no
    stage is called and nothing is removed. *)
Theorem workspace_failure_changes_nothing
    (E : env) (url : string) (w w1 : world) (e : exn) :
  run (@None string) (mkdtemp E) w = (Raise e, w1) ->
  get_convert E url w
  = ({| status := 500; body := detail_body ("An error occurred: " +:+ exn_str E e) |}, w).
Proof.
  intros H1. rewrite get_convert_staged. unfold staged. rewrite H1.
  by apply mkdtemp_raises in H1 as ->.
Qed.

Lemma workspace_failure_witness :
  get_convert Scenario.happy Scenario.url
    (with_fs (insert "/tmp/tmpk3x9q2ab" (File (Bytes "taken"))) Scenario.empty_world)
  = ({| status := 500;
        body := detail_body
                  ("An error occurred: "
                   +:+ exn_str Scenario.happy (no_usable_name "directory")) |},
     with_fs (insert "/tmp/tmpk3x9q2ab" (File (Bytes "taken"))) Scenario.empty_world).
Proof.
  apply (workspace_failure_changes_nothing Scenario.happy Scenario.url
           (with_fs (insert "/tmp/tmpk3x9q2ab" (File (Bytes "taken"))) Scenario.empty_world)
           (with_fs (insert "/tmp/tmpk3x9q2ab" (File (Bytes "taken"))) Scenario.empty_world)
           (no_usable_name "directory")).
  reflexivity.
Defined.

Lemma input_path_in_workspace (E : env) :
  Os.at_or_under (mkdtemp_path E) (input_path E) = true.
Proof.
  unfold Os.at_or_under, Os.under, input_path, Os.path_join, Str.startswith.
  apply orb_true_iff. right.
  change (String.prefix "/" "input.ply") with false.
  change (String.prefix "/" "") with false. cbn match.
  destruct (_ || _).
  - rewrite append_nil_r. apply prefix_append.
  - rewrite <- !append_assoc, append_nil_r. apply prefix_append.
Qed.

(** X15.  When the download fails, in whichever way, the request leaves
    the file system as it was before the workspace was made (in which
    nothing existed at or below the workspace path). *)
Theorem failed_fetch_leaves_no_file
    (E : env) (url : string) (w w1 w2 : world) (e : exn) :
  run (@None string) (mkdtemp E) w = (Ret (mkdtemp_path E), w1) ->
  run tt (download_file E url (input_path E)) w1 = (Raise e, w2) ->
  (forall q, Os.at_or_under (mkdtemp_path E) q = true -> fs w !! q = None) ->
  fs (snd (get_convert E url w)) = fs w.
Proof.
  intros H1 H2 Hfree.
  rewrite get_convert_staged. unfold staged. rewrite H1, H2. cbn [snd].
  destruct (mkdtemp_returns _ _ _ _ H1) as [_ ->].
  unfold cleaned. cbn [fs with_fs].
  apply map_eq. intros q. rewrite lookup_remove_tree.
  destruct (Os.at_or_under (mkdtemp_path E) q) eqn:Hq; [by rewrite Hfree|].
  assert (q <> mkdtemp_path E) as Hne1.
  { intros ->. by rewrite at_or_under_refl in Hq. }
  assert (q <> input_path E) as Hne2.
  { intros ->. by rewrite input_path_in_workspace in Hq. }
  destruct (download_file_cases E url (input_path E)
              (with_fs (insert (mkdtemp_path E) Dir) w)) as [[le Hrun] | (r & _ & Hrun)];
    rewrite Hrun in H2; injection H2 as _ <-.
  - cbn [fs with_call with_fs]. by rewrite lookup_insert_ne.
  - unfold downloaded. cbn [fs with_call with_fs]. by rewrite !lookup_insert_ne.
Qed.

Lemma failed_fetch_witness :
  fs (snd (get_convert Scenario.not_found Scenario.url Scenario.empty_world))
  = fs Scenario.empty_world.
Proof.
  apply (failed_fetch_leaves_no_file Scenario.not_found Scenario.url Scenario.empty_world
           (with_fs (insert "/tmp/tmpk3x9q2ab" Dir) Scenario.empty_world)
           (with_call (CallDownload Scenario.url "/tmp/tmpk3x9q2ab/input.ply")
              (with_fs (insert "/tmp/tmpk3x9q2ab" Dir) Scenario.empty_world))
           (HTTPError "Client"
              {| status_code := 404; reason := "Not Found"; resp_url := Scenario.url;
                 chunks := []; stream_error := None |})).
  - reflexivity.
  - reflexivity.
  - intros q _. apply lookup_empty.
Defined.

(** ** test_api.py *)

Lemma raise_for_status_raises {L} (r : response) :
  error_status (status_code r) = true ->
  exists le, raise_for_status (L:=L) r = raise (LibraryError le).
Proof.
  unfold raise_for_status, error_status.
  destruct (400 <=? status_code r)%Z eqn:H4, (status_code r <? 500)%Z eqn:H5,
    (500 <=? status_code r)%Z eqn:H6, (status_code r <? 600)%Z eqn:H7;
    cbn; try done; try lia; intros _; eexists; reflexivity.
Qed.

Ltac caught :=
  repeat match goal with
         | |- context [if is_timeout ?e then _ else _] => destruct (is_timeout e)
         | |- context [if is_http_error ?e then _ else _] => destruct (is_http_error e)
         end;
  done.

(** What [test_conversion] does with a URL that is not empty: one
    request, and a verdict on the answer. *)
Lemma test_conversion_frame (T : transport) (base_url u : string) (w : world) :
  u <> "" ->
  test_conversion T base_url (Some u) (Frame tt w)
  = match T (base_url +:+ "/convert") {["url" := u]} w with
    | (ClientRaises e, w') => (Ret false, Frame tt w')
    | (ClientAnswers a, w') => (Ret (conversion_accepted a), Frame tt w')
    end.
Proof.
  intros Hu. unfold test_conversion.
  apply String.eqb_neq in Hu. rewrite Hu.
  unfold client_get. py_simpl.
  destruct (T (base_url +:+ "/convert") {["url" := u]} w) as [[e|a] w'].
  { py_simpl. caught. }
  unfold conversion_accepted, check_status. py_simpl.
  destruct (error_status (ans_status a)) eqn:Hst.
  { destruct (raise_for_status_raises (L:=unit)
                {| status_code := ans_status a; reason := ans_reason a;
                   resp_url := ans_url a; chunks := []; stream_error := None |} Hst)
      as [le ->].
    py_simpl. caught. }
  rewrite (raise_for_status_passes
             {| status_code := ans_status a; reason := ans_reason a;
                resp_url := ans_url a; chunks := []; stream_error := None |} Hst).
  unfold response_json. py_simpl. cbn [negb andb].
  destruct (ans_json a) as [[s|items|entries]|]; py_simpl;
    try (unfold subscript; py_simpl; caught).
  unfold subscript.
  destruct (py_get "glb_url" (PyDict entries)) as [g|]; py_simpl;
    [|caught].
  destruct (py_get "message" (PyDict entries)) as [m|]; py_simpl;
    [done | caught].
Qed.

Lemma test_conversion_run (T : transport) (base_url u : string) (w : world) :
  u <> "" ->
  run tt (test_conversion T base_url (Some u)) w
  = match T (base_url +:+ "/convert") {["url" := u]} w with
    | (ClientRaises e, w') => (Ret false, w')
    | (ClientAnswers a, w') => (Ret (conversion_accepted a), w')
    end.
Proof.
  intros Hu. unfold run. rewrite (test_conversion_frame T base_url u w Hu).
  by destruct (T (base_url +:+ "/convert") {["url" := u]} w) as [[e|a] w'].
Qed.

(** X16.  [test_conversion] never raises.  It returns [True] exactly
    when it was given a URL that is not empty and the request was
    answered with a status outside 400 to 599 and a JSON object holding
    both [glb_url] and [message]; without a URL it returns [False] and
    sends nothing. *)
Theorem test_conversion_verdict
    (T : transport) (base_url : string) (ply_url : option string) (w : world) :
  (exists b, fst (run tt (test_conversion T base_url ply_url) w) = Ret b) /\
  (fst (run tt (test_conversion T base_url ply_url) w) = Ret true <->
   exists u a w',
     ply_url = Some u /\ u <> "" /\
     T (base_url +:+ "/convert") {["url" := u]} w = (ClientAnswers a, w') /\
     conversion_accepted a = true) /\
  (ply_url = None \/ ply_url = Some "" ->
   run tt (test_conversion T base_url ply_url) w = (Ret false, w)).
Proof.
  destruct ply_url as [u|].
  2:{ repeat split; eauto; [done | by intros (u & a & w' & H & _)]. }
  destruct (decide (u = "")) as [->|Hu].
  { repeat split; eauto; [done | by intros (u & a & w' & [= <-] & H & _)]. }
  rewrite (test_conversion_run T base_url u w Hu).
  destruct (T (base_url +:+ "/convert") {["url" := u]} w) as [[e|a] w'] eqn:HT;
    cbn [fst snd].
  - repeat split; eauto; [done | | by intros [|[= ->]]].
    intros (u' & a & w'' & [= <-] & _ & H & _). rewrite HT in H. done.
  - repeat split; eauto.
    + intros [= Hacc]. by exists u, a, w'.
    + intros (u' & a' & w'' & [= <-] & _ & H & Hacc). rewrite HT in H.
      injection H as <- <-. by rewrite Hacc.
    + by intros [|[= ->]].
Qed.

Lemma strip_prefix_append (base path : string) :
  strip_prefix base (base +:+ path) = Some path.
Proof.
  induction base as [|c base IH]; [done|].
  rewrite append_cons. cbn [strip_prefix]. by destruct (Ascii.ascii_dec c c).
Qed.

Lemma loopback_delivers (E : env) (base_url : string) :
  delivers_to (loopback E base_url) E base_url.
Proof.
  intros path params w resp w' Happ. exists "".
  unfold loopback. by rewrite strip_prefix_append, Happ.
Qed.

Lemma app_get_health (E : env) (params : gmap string string) (w : world) :
  app_get E "/health" params w
  = Some ({| status := 200; body := PyDict [("status", PyStr "healthy")] |}, w).
Proof. reflexivity. Qed.

Lemma app_get_convert (E : env) (u : string) (w : world) :
  app_get E "/convert" {["url" := u]} w = Some (get_convert E u w).
Proof. unfold app_get. cbn [String.eqb]. cbn. by rewrite lookup_singleton_eq. Qed.

Lemma test_health_check_passes (T : transport) (E : env) (base_url : string) (w : world) :
  delivers_to T E base_url ->
  test_health_check T base_url (Frame tt w) = (Ret true, Frame tt w).
Proof.
  intros HT.
  destruct (HT "/health" ∅ w _ _ (app_get_health E ∅ w)) as [why Hget].
  unfold test_health_check, client_get, check_status, response_json. py_simpl.
  rewrite Hget. py_simpl. cbn [ans_status ans_reason ans_url ans_json status body].
  rewrite raise_for_status_passes by done. py_simpl. done.
Qed.

(** X17.  Run against the service, the script exits with status 0 when
    it is given no URL, and otherwise exactly when the URL is not empty
    and /convert answers it with 200; the health check always passes,
    and an empty URL is failed without being sent. *)
Theorem script_exit_status_follows_the_answer
    (T : transport) (E : env) (argv : list string) (w : world) :
  delivers_to T E "http://localhost:8000" ->
  fst (run tt (test_api_main T argv) w)
  = Ret (match argv with
         | _ :: ply_url :: _ =>
             if negb (String.eqb ply_url "")
                && (status (fst (get_convert E ply_url w)) =? 200)%Z
             then 0%Z else 1%Z
         | _ => 0%Z
         end).
Proof.
  intros HT. unfold run, test_api_main. py_simpl.
  rewrite (test_health_check_passes T E "http://localhost:8000" w HT). py_simpl.
  cbn [negb].
  destruct argv as [|script [|u rest]]; py_simpl; [done | done |].
  destruct (String.eqb u "") eqn:Hu.
  { apply String.eqb_eq in Hu as ->. unfold test_conversion. py_simpl. done. }
  apply String.eqb_neq in Hu.
  rewrite (test_conversion_frame T "http://localhost:8000" u w Hu).
  pose proof (every_answer_shape E u w) as Hshape.
  pose proof (app_get_convert E u w) as Happ.
  destruct (get_convert E u w) as [resp w'].
  destruct (HT "/convert" {["url" := u]} w resp w' Happ) as [why ->].
  py_simpl. cbn [negb andb fst] in *.
  destruct Hshape as [-> | [m ->]]; reflexivity.
Qed.

Lemma script_exit_status_witness :
  fst (run tt (test_api_main (loopback Scenario.happy "http://localhost:8000")
                 ["test_api.py"; Scenario.url])
         Scenario.empty_world)
  = Ret (if negb (String.eqb Scenario.url "")
            && (status (fst (get_convert Scenario.happy Scenario.url
                               Scenario.empty_world)) =? 200)%Z
         then 0%Z else 1%Z).
Proof.
  apply (script_exit_status_follows_the_answer
           (loopback Scenario.happy "http://localhost:8000") Scenario.happy
           ["test_api.py"; Scenario.url] Scenario.empty_world).
  apply loopback_delivers.
Defined.
